(** * setup-env.py: development-environment provisioning script

    A shallow embedding of [scripts/setup-env.py].  The script probes the
    host (operating system, package manager, executables on the path) and
    shells out to a package manager for every missing tool.  Its effects
    are modelled by a small monad over an abstract host: a computation
    threads the state of the machine, records the probes, shell commands
    and printed lines it performs, and either returns a value or raises a
    Python exception. *)

From Stdlib Require Import String Ascii List ZArith Bool Arith Lia.
From Stdlib Require Import DecimalString.
Import ListNotations.

Open Scope string_scope.

(** ** The host *)

(** What [subprocess.run] hands back when the command could be launched. *)
Record CompletedProcess : Type := mkCompleted {
  returncode : Z;
  stdout : string;
  stderr : string
}.

(** What becomes of a command line handed to [subprocess.run]: it runs and
    hands back a completed process; or it cannot be launched at all (Python
    raises [OSError]); or it runs, whatever its exit status, and its output
    cannot be decoded as text (Python raises [UnicodeDecodeError] out of
    [text=True], after the command has finished). *)
Inductive launch : Type :=
| Exited (p : CompletedProcess)
| NotLaunched
| Undecodable.

(** The machine the script runs on.  [which] is [shutil.which] (true when a
    path is returned), [shell] runs a command line through the shell and may
    change the machine, [platform_system] and [platform_machine] are the
    strings of Python's [platform] module. *)
Class Host : Type := {
  World : Type;
  which : World -> string -> bool;
  shell : World -> string -> launch * World;
  platform_system : World -> string;
  platform_machine : World -> string
}.

(** Observable actions, in the order they happen. *)
Inductive event : Type :=
| EvWhich (name : string)
| EvShell (cmd : string)
| EvPrint (line : string).

(** The Python exceptions the script can meet. *)
Inductive exn : Type :=
| CalledProcessError (code : Z) (err : string)
| OSError
| UnicodeDecodeError
| SystemExit (code : Z).

Inductive outcome (A : Type) : Type :=
| Ok (a : A)
| Raise (e : exn).
Arguments Ok {A} a.
Arguments Raise {A} e.

(** ** Pure helpers standing for Python built-ins *)

Definition is_upper (c : ascii) : bool :=
  ((65 <=? nat_of_ascii c) && (nat_of_ascii c <=? 90))%nat.

Definition is_lower (c : ascii) : bool :=
  ((97 <=? nat_of_ascii c) && (nat_of_ascii c <=? 122))%nat.

Definition lower_char (c : ascii) : ascii :=
  if is_upper c then ascii_of_nat (nat_of_ascii c + 32) else c.

Definition upper_char (c : ascii) : ascii :=
  if is_lower c then ascii_of_nat (nat_of_ascii c - 32) else c.

(** [str.lower()] on the ASCII range. *)
Fixpoint lower (s : string) : string :=
  match s with
  | EmptyString => EmptyString
  | String c s' => String (lower_char c) (lower s')
  end.

(** [str.title()]: a letter that follows a letter is lower-cased, any other
    letter is upper-cased. *)
Fixpoint title_from (prev_cased : bool) (s : string) : string :=
  match s with
  | EmptyString => EmptyString
  | String c s' =>
      String (if prev_cased then lower_char c else upper_char c)
             (title_from (is_upper c || is_lower c) s')
  end.

Definition title (s : string) : string := title_from false s.

(** [s * n] on strings. *)
Fixpoint str_mul (s : string) (n : nat) : string :=
  match n with
  | O => EmptyString
  | S n' => s ++ str_mul s n'
  end.

(** [str(n)] for a natural number. *)
Definition str_of_nat (n : nat) : string :=
  NilEmpty.string_of_uint (Nat.to_uint n).

(** Truth value of an optional string argument: [None] and the empty string
    are false. *)
Definition truthy (o : option string) : bool :=
  match o with
  | Some s => negb (s =? "")
  | None => false
  end.

(** [pm == name] where [pm] may be [None]. *)
Definition pm_is (pm : option string) (name : string) : bool :=
  match pm with
  | Some m => m =? name
  | None => false
  end.

Section Script.

Context `{Host}.

(** ** The effect monad *)

Record run (A : Type) : Type := mkRun {
  res : outcome A;
  final : World;
  log : list event
}.
Arguments mkRun {A} res final log.
Arguments res {A} r.
Arguments final {A} r.
Arguments log {A} r.

Definition M (A : Type) : Type := World -> run A.

Definition ret {A : Type} (a : A) : M A :=
  fun w => mkRun (Ok a) w [].

Definition raise {A : Type} (e : exn) : M A :=
  fun w => mkRun (Raise e) w [].

Definition bind {A B : Type} (m : M A) (f : A -> M B) : M B :=
  fun w =>
    let r := m w in
    match res r with
    | Ok a =>
        let r' := f a (final r) in
        mkRun (res r') (final r') (log r ++ log r')
    | Raise e => mkRun (Raise e) (final r) (log r)
    end.

(** [try: m  except <the exceptions h accepts>: handler]. *)
Definition try_except {A : Type} (m : M A) (h : exn -> option (M A)) : M A :=
  fun w =>
    let r := m w in
    match res r with
    | Ok _ => r
    | Raise e =>
        match h e with
        | Some k =>
            let r' := k (final r) in
            mkRun (res r') (final r') (log r ++ log r')
        | None => r
        end
    end.

End Script.

Arguments mkRun {_ A} res final log.
Arguments res {_ A} r.
Arguments final {_ A} r.
Arguments log {_ A} r.

Declare Scope script_scope.
Delimit Scope script_scope with script.
Notation "x <- m ;; k" := (bind m (fun x => k))
  (at level 100, m at next level, right associativity) : script_scope.
Notation "' p <- m ;; k" := (bind m (fun p => k))
  (at level 100, p pattern, m at next level, right associativity) : script_scope.
Notation "m ;; k" := (bind m (fun _ => k))
  (at level 100, right associativity) : script_scope.
Open Scope script_scope.

Section Primitives.

Context `{Host}.

(** [shutil.which(name)], as a truth value. *)
Definition shutil_which (name : string) : M bool :=
  fun w => mkRun (Ok (which w name)) w [EvWhich name].

Definition print (line : string) : M unit :=
  fun w => mkRun (Ok tt) w [EvPrint line].

(** [subprocess.run(cmd, shell=True, capture_output=True, text=True)], with
    [check=True] when [check] is set: a non-zero exit status then raises
    [CalledProcessError].  The output is decoded before the exit status is
    looked at, so undecodable output raises whatever the status. *)
Definition subprocess_run (cmd : string) (check : bool) : M CompletedProcess :=
  fun w =>
    match shell w cmd with
    | (Exited p, w') =>
        if check && negb (returncode p =? 0)%Z
        then mkRun (Raise (CalledProcessError (returncode p) (stderr p))) w' [EvShell cmd]
        else mkRun (Ok p) w' [EvShell cmd]
    | (NotLaunched, w') => mkRun (Raise OSError) w' [EvShell cmd]
    | (Undecodable, w') => mkRun (Raise UnicodeDecodeError) w' [EvShell cmd]
    end.

(** ** [class SystemDetector] *)

Record SystemDetector : Type := mkDetector {
  system : string;
  machine : string;
  is_windows : bool;
  is_linux : bool;
  is_macos : bool
}.

Definition SystemDetector_init : M SystemDetector :=
  fun w =>
    let system := lower (platform_system w) in
    let machine := lower (platform_machine w) in
    mkRun (Ok (mkDetector system machine
                 (system =? "windows") (system =? "linux") (system =? "darwin")))
          w [].

Definition get_package_manager (self : SystemDetector) : M (option string) :=
  if is_windows self then
    (b <- shutil_which "winget";;
     if b then ret (Some "winget") else
     b <- shutil_which "choco";;
     if b then ret (Some "choco") else
     b <- shutil_which "scoop";;
     if b then ret (Some "scoop") else
     ret None)
  else if is_linux self then
    (b <- shutil_which "apt";;
     if b then ret (Some "apt") else
     b <- shutil_which "dnf";;
     if b then ret (Some "dnf") else
     b <- shutil_which "yum";;
     if b then ret (Some "yum") else
     b <- shutil_which "pacman";;
     if b then ret (Some "pacman") else
     ret None)
  else if is_macos self then
    (b <- shutil_which "brew";;
     if b then ret (Some "brew") else
     ret None)
  else ret None.

(** ** [class ToolInstaller] *)

Record ToolInstaller : Type := mkInstaller {
  detector : SystemDetector;
  pkg_mgr : option string
}.

Definition ToolInstaller_init (detector : SystemDetector) : M ToolInstaller :=
  pm <- get_package_manager detector;;
  ret (mkInstaller detector pm).

(** [check_tool(tool_name, version_cmd=None, min_version=None)].  The bare
    [except:] catches whatever the version command raises. *)
Definition check_tool (tool_name : string) (version_cmd min_version : option string)
  : M (bool * string) :=
  found <- shutil_which tool_name;;
  if negb found then ret (false, "Not installed") else
  if truthy version_cmd && truthy min_version then
    try_except
      (_ <- subprocess_run (match version_cmd with Some c => c | None => "" end) false;;
       ret (true, "Installed"))
      (fun _ => Some (ret (false, "Version check failed")))
  else ret (true, "Installed").

(** [run_command(cmd, description)]: only [CalledProcessError] is caught. *)
Definition run_command (cmd description : string) : M bool :=
  print ("📦 " ++ description);;
  try_except
    (_ <- subprocess_run cmd true;;
     print ("✅ Success: " ++ description);;
     ret true)
    (fun e =>
       match e with
       | CalledProcessError _ err =>
           Some (print ("❌ Failed: " ++ description);;
                 print ("Error: " ++ err);;
                 ret false)
       | _ => None
       end).

Definition install_cmake (self : ToolInstaller) : M bool :=
  '(installed, status) <- check_tool "cmake" (Some "cmake --version") None;;
  if installed then
    (print ("✅ CMake: " ++ status);;
     ret true)
  else
    print "📦 Installing CMake...";;
    if pm_is (pkg_mgr self) "winget" then
      run_command "winget install Kitware.CMake" "Installing CMake via winget"
    else if pm_is (pkg_mgr self) "choco" then
      run_command "choco install cmake" "Installing CMake via chocolatey"
    else if pm_is (pkg_mgr self) "apt" then
      run_command "sudo apt update && sudo apt install -y cmake" "Installing CMake via apt"
    else if pm_is (pkg_mgr self) "dnf" then
      run_command "sudo dnf install -y cmake" "Installing CMake via dnf"
    else if pm_is (pkg_mgr self) "yum" then
      run_command "sudo yum install -y cmake" "Installing CMake via yum"
    else if pm_is (pkg_mgr self) "pacman" then
      run_command "sudo pacman -S --noconfirm cmake" "Installing CMake via pacman"
    else if pm_is (pkg_mgr self) "brew" then
      run_command "brew install cmake" "Installing CMake via homebrew"
    else
      print "❌ No supported package manager found for CMake installation";;
      print "Please install CMake manually from: https://cmake.org/download/";;
      ret false.

Definition compilers (self : ToolInstaller) : list string :=
  if is_windows (detector self) then ["g++"; "clang++"; "cl"] else ["g++"; "clang++"].

(** The [for compiler in compilers] loop: the name of the first compiler
    found, probing in order and stopping there. *)
Fixpoint first_compiler (candidates : list string) : M (option string) :=
  match candidates with
  | [] => ret None
  | compiler :: rest =>
      found <- shutil_which compiler;;
      if found then ret (Some compiler) else first_compiler rest
  end.

Definition install_compiler (self : ToolInstaller) : M bool :=
  hit <- first_compiler (compilers self);;
  match hit with
  | Some compiler =>
      print ("✅ C++ Compiler: " ++ compiler ++ " installed");;
      ret true
  | None =>
      print "----- Installing C++ compiler -----";;
      if is_windows (detector self) then
        print "Please ensure one of the following is installed:";;
        print "  - Visual Studio 2019/2022 with C++ workload";;
        print "  - Visual Studio Build Tools";;
        print "  - MinGW-w64";;
        print "  - Clang/LLVM";;
        ret true
      else if pm_is (pkg_mgr self) "apt" then
        run_command "sudo apt install -y build-essential" "Installing GCC via apt"
      else if pm_is (pkg_mgr self) "dnf" then
        run_command "sudo dnf groupinstall -y 'Development Tools'" "Installing GCC via dnf"
      else if pm_is (pkg_mgr self) "yum" then
        run_command "sudo yum groupinstall -y 'Development Tools'" "Installing GCC via yum"
      else if pm_is (pkg_mgr self) "pacman" then
        run_command "sudo pacman -S --noconfirm base-devel" "Installing GCC via pacman"
      else if pm_is (pkg_mgr self) "brew" then
        print "✅ Clang should be available via Xcode Command Line Tools";;
        run_command "xcode-select --install" "Installing Xcode Command Line Tools"
      else
        print "❌ No supported package manager found for compiler installation";;
        ret false
  end.

Definition install_git (self : ToolInstaller) : M bool :=
  '(installed, status) <- check_tool "git" (Some "git --version") None;;
  if installed then
    (print ("✅ Git: " ++ status);;
     ret true)
  else
    if pm_is (pkg_mgr self) "winget" then
      run_command "winget install Git.Git" "Installing Git via winget"
    else if pm_is (pkg_mgr self) "choco" then
      run_command "choco install git" "Installing Git via chocolatey"
    else if pm_is (pkg_mgr self) "apt" then
      run_command "sudo apt install -y git" "Installing Git via apt"
    else if pm_is (pkg_mgr self) "dnf" then
      run_command "sudo dnf install -y git" "Installing Git via dnf"
    else if pm_is (pkg_mgr self) "yum" then
      run_command "sudo yum install -y git" "Installing Git via yum"
    else if pm_is (pkg_mgr self) "pacman" then
      run_command "sudo pacman -S --noconfirm git" "Installing Git via pacman"
    else if pm_is (pkg_mgr self) "brew" then
      run_command "brew install git" "Installing Git via homebrew"
    else
      print "❌ No supported package manager found for Git installation";;
      ret false.

Definition install_coverage_tools (self : ToolInstaller) : M bool :=
  if is_windows (detector self) then
    found <- shutil_which "OpenCppCoverage";;
    if found then
      (print "✅ OpenCppCoverage: Installed";;
       ret true)
    else
      if pm_is (pkg_mgr self) "choco" then
        run_command "choco install opencppcoverage" "Installing OpenCppCoverage via chocolatey"
      else
        print "❌ Please install OpenCppCoverage manually from:";;
        print "https://github.com/OpenCppCoverage/OpenCppCoverage/releases";;
        ret false
  else
    gcovr_installed <- shutil_which "gcovr";;
    lcov_installed <- shutil_which "lcov";;
    if gcovr_installed && lcov_installed then
      (print "✅ gcovr: Installed";;
       print "✅ lcov: Installed";;
       ret true)
    else
      let success := true in
      success <-
        (if negb gcovr_installed then
           if pm_is (pkg_mgr self) "apt" then
             r <- run_command "sudo apt install -y gcovr" "Installing gcovr via apt";;
             ret (success && r)
           else if pm_is (pkg_mgr self) "dnf" then
             r <- run_command "sudo dnf install -y gcovr" "Installing gcovr via dnf";;
             ret (success && r)
           else if pm_is (pkg_mgr self) "yum" then
             r <- run_command "sudo yum install -y gcovr" "Installing gcovr via yum";;
             ret (success && r)
           else if pm_is (pkg_mgr self) "pacman" then
             r <- run_command "sudo pacman -S --noconfirm gcovr" "Installing gcovr via pacman";;
             ret (success && r)
           else if pm_is (pkg_mgr self) "brew" then
             r <- run_command "brew install gcovr" "Installing gcovr via homebrew";;
             ret (success && r)
           else
             print "❌ gcovr not available via package manager. Please install manually.";;
             ret false
         else
           print "✅ gcovr: Already installed";;
           ret success);;
      success <-
        (if negb lcov_installed then
           if pm_is (pkg_mgr self) "apt" then
             r <- run_command "sudo apt install -y lcov" "Installing lcov via apt";;
             ret (success && r)
           else if pm_is (pkg_mgr self) "dnf" then
             r <- run_command "sudo dnf install -y lcov" "Installing lcov via dnf";;
             ret (success && r)
           else if pm_is (pkg_mgr self) "yum" then
             r <- run_command "sudo yum install -y lcov" "Installing lcov via yum";;
             ret (success && r)
           else if pm_is (pkg_mgr self) "pacman" then
             r <- run_command "sudo pacman -S --noconfirm lcov" "Installing lcov via pacman";;
             ret (success && r)
           else if pm_is (pkg_mgr self) "brew" then
             r <- run_command "brew install lcov" "Installing lcov via homebrew";;
             ret (success && r)
           else
             print "❌ lcov not available via package manager. Please install manually.";;
             ret false
         else
           print "✅ lcov: Already installed";;
           ret success);;
      ret success.

Definition install_doxygen (self : ToolInstaller) : M bool :=
  '(installed, status) <- check_tool "doxygen" (Some "doxygen --version") None;;
  if installed then
    (print ("✅ Doxygen: " ++ status);;
     ret true)
  else
    print "📦 Installing Doxygen...";;
    if pm_is (pkg_mgr self) "winget" then
      run_command "winget install DimitriVanHeesch.Doxygen" "Installing Doxygen via winget"
    else if pm_is (pkg_mgr self) "choco" then
      run_command "choco install doxygen.install" "Installing Doxygen via chocolatey"
    else if pm_is (pkg_mgr self) "apt" then
      run_command "sudo apt install -y doxygen graphviz" "Installing Doxygen via apt"
    else if pm_is (pkg_mgr self) "dnf" then
      run_command "sudo dnf install -y doxygen graphviz" "Installing Doxygen via dnf"
    else if pm_is (pkg_mgr self) "yum" then
      run_command "sudo yum install -y doxygen graphviz" "Installing Doxygen via yum"
    else if pm_is (pkg_mgr self) "pacman" then
      run_command "sudo pacman -S --noconfirm doxygen graphviz" "Installing Doxygen via pacman"
    else if pm_is (pkg_mgr self) "brew" then
      run_command "brew install doxygen graphviz" "Installing Doxygen via homebrew"
    else
      print "❌ No supported package manager found for Doxygen installation";;
      ret false.

(** ** [main] *)

Definition nl : string := String (ascii_of_nat 10) EmptyString.

(** The counting part of [main]: the four required tools, then the optional
    one when [--install-optional] was given.  Returns
    [(success_count, total_tools)]. *)
Definition provision (installer : ToolInstaller) (install_optional : bool)
  : M (nat * nat) :=
  let success_count := 0 in
  let total_tools := 4 in
  ok <- install_cmake installer;;
  let success_count := if ok then success_count + 1 else success_count in
  ok <- install_compiler installer;;
  let success_count := if ok then success_count + 1 else success_count in
  ok <- install_git installer;;
  let success_count := if ok then success_count + 1 else success_count in
  ok <- install_coverage_tools installer;;
  let success_count := if ok then success_count + 1 else success_count in
  if install_optional then
    print (nl ++ "📋 Installing optional tools...");;
    print (str_mul "-" 30);;
    ok <- install_doxygen installer;;
    let success_count := if ok then success_count + 1 else success_count in
    let total_tools := total_tools + 1 in
    ret (success_count, total_tools)
  else ret (success_count, total_tools).

(** [main()], after [argparse] has turned the command line into
    [args.install_optional]. *)
Definition main (install_optional : bool) : M unit :=
  print "🔍 Development Environment Setup";;
  print (str_mul "=" 50);;
  detector <- SystemDetector_init;;
  print ("System: " ++ title (system detector));;
  print ("Architecture: " ++ machine detector);;
  pm <- get_package_manager detector;;
  (if truthy pm then
     pm' <- get_package_manager detector;;
     print ("Package Manager: " ++ match pm' with Some m => m | None => "None" end)
   else print "Package Manager: None detected");;
  print (nl ++ "📋 Checking and installing required tools...");;
  print (str_mul "-" 50);;
  installer <- ToolInstaller_init detector;;
  '(success_count, total_tools) <- provision installer install_optional;;
  print (nl ++ str_mul "=" 50);;
  print ("✅ Setup complete: " ++ str_of_nat success_count ++ "/"
         ++ str_of_nat total_tools ++ " tools installed successfully");;
  if (success_count =? total_tools)%nat then
    print (nl ++ "🎉 All tools are ready! You can now build the project:");;
    print "   mkdir build && cd build";;
    print "   cmake ..";;
    print "   cmake --build ."
  else
    print (nl ++ "⚠️  Some tools failed to install. Please install them manually.");;
    print "   Check the error messages above for details.";;
    raise (SystemExit 1).

(** Exit status of the interpreter running [main()] as the program: 0 when
    [main] returns, the code of [sys.exit], 1 for any other exception that
    reaches the top level. *)
Definition exit_status (r : outcome unit) : Z :=
  match r with
  | Ok _ => 0
  | Raise (SystemExit code) => code
  | Raise _ => 1
  end.

End Primitives.

(** ** A concrete host for examples

    A machine described by its system string, the executables on its path,
    the command lines that exit with status 1, the command lines that
    cannot be launched at all, the executables each command line installs
    and the command lines whose output is not valid text.  A command that
    succeeds puts the executables listed for it on the path. *)
Record Machine : Type := mkMachine {
  uname : string;
  on_path : list string;
  failing : list string;
  unlaunchable : list string;
  provides : list (string * string);
  garbled : list string
}.

(** Membership in a list of names. *)
Definition mem (s : string) (l : list string) : bool :=
  existsb (String.eqb s) l.

(** The executables a command line installs. *)
Definition provided (cmd : string) (table : list (string * string)) : list string :=
  map snd (filter (fun e => fst e =? cmd) table).

(** Running a command line on a machine. *)
Definition machine_shell (m : Machine) (cmd : string) : launch * Machine :=
  if mem cmd (unlaunchable m) then (NotLaunched, m)
  else if mem cmd (failing m) then
    (if mem cmd (garbled m) then Undecodable
     else Exited (mkCompleted 1 "" "E: Unable to locate package"), m)
  else
    (if mem cmd (garbled m) then Undecodable else Exited (mkCompleted 0 "" ""),
     mkMachine (uname m) (provided cmd (provides m) ++ on_path m)
               (failing m) (unlaunchable m) (provides m) (garbled m)).

#[local] Instance machine_host : Host := {
  World := Machine;
  which := fun m name => mem name (on_path m);
  shell := machine_shell;
  platform_system := uname;
  platform_machine := fun _ => "x86_64"
}.

(** A debian machine with a compiler and git but neither cmake nor the
    coverage tools; the gcovr package cannot be found. *)
Definition debian : World :=
  mkMachine "Linux" ["apt"; "g++"; "git"] ["sudo apt install -y gcovr"] []
            [("sudo apt update && sudo apt install -y cmake", "cmake");
             ("sudo apt install -y lcov", "lcov")] [].

(** A linux workstation with two package managers and every required tool;
    doxygen is missing and its package cannot be installed. *)
Definition workstation : World :=
  mkMachine "Linux" ["apt"; "dnf"; "cmake"; "g++"; "git"; "gcovr"; "lcov"]
            ["sudo apt install -y doxygen graphviz"] [] [] [].

(** A linux host with no package manager of the list and no tool. *)
Definition alpine : World := mkMachine "Linux" [] [] [] [] [].

(** A Windows host with no package manager and no tool. *)
Definition windows_bare : World := mkMachine "Windows" [] [] [] [] [].

(** A host whose system string is not one of the three. *)
Definition freebsd : World :=
  mkMachine "FreeBSD" ["clang++"; "git"] [] [] [] [].

(** Installers as [ToolInstaller(detector)] builds them: on linux with apt,
    on linux without a package manager, on Windows without one. *)
Definition apt_installer : ToolInstaller :=
  mkInstaller (mkDetector "linux" "x86_64" false true false) (Some "apt").

Definition bare_installer : ToolInstaller :=
  mkInstaller (mkDetector "linux" "x86_64" false true false) None.

Definition windows_installer : ToolInstaller :=
  mkInstaller (mkDetector "windows" "amd64" true false false) None.

(** A Windows host with both winget and chocolatey and no tool. *)
Definition windows_desktop : World :=
  mkMachine "Windows" ["winget"; "choco"] ["winget install Git.Git"] [] [] [].

(** A Windows host with chocolatey only. *)
Definition windows_choco : World :=
  mkMachine "Windows" ["choco"] [] [] [] [].

(** A linux build server with every tool, doxygen included. *)
Definition build_server : World :=
  mkMachine "Linux"
            ["apt"; "cmake"; "clang++"; "git"; "gcovr"; "lcov"; "doxygen"]
            [] [] [] [].

(** A machine on which the git package cannot even be asked for. *)
Definition broken_shell : World :=
  mkMachine "Linux" ["apt"; "cmake"; "g++"] [] ["sudo apt install -y git"] [] [].

(** A machine on which the cmake package installs, with exit status 0, but
    prints bytes that are not valid text. *)
Definition garbled_apt : World :=
  mkMachine "Linux" ["apt"; "g++"; "git"; "gcovr"; "lcov"] [] []
            [("sudo apt update && sudo apt install -y cmake", "cmake")]
            ["sudo apt update && sudo apt install -y cmake"].

(** The machines on which every command is launched and prints valid text,
    so that it hands back an exit status. *)
Definition launchable (m : World) : Prop :=
  unlaunchable m = [] /\ garbled m = [].

(** ** Vocabulary of the specification *)

Inductive os_family : Type := Windows | Linux | MacOS | Unrecognized.

(** The family named by a system identification string: lower-cased and
    matched against "windows", "linux" and "darwin". *)
Definition family_of_system (s : string) : os_family :=
  if lower s =? "windows" then Windows
  else if lower s =? "linux" then Linux
  else if lower s =? "darwin" then MacOS
  else Unrecognized.

(** The family a detector stands for, read from its three flags in the order
    [get_package_manager] tests them. *)
Definition family (d : SystemDetector) : os_family :=
  if is_windows d then Windows
  else if is_linux d then Linux
  else if is_macos d then MacOS
  else Unrecognized.

(** The fixed priority list of package managers of each family. *)
Definition candidates (f : os_family) : list string :=
  match f with
  | Windows => ["winget"; "choco"; "scoop"]
  | Linux => ["apt"; "dnf"; "yum"; "pacman"]
  | MacOS => ["brew"]
  | Unrecognized => []
  end.

(** The names probed when a list is scanned for its first present entry:
    everything up to and including that entry. *)
Fixpoint scanned (present : string -> bool) (l : list string) : list string :=
  match l with
  | [] => []
  | x :: rest => x :: (if present x then [] else scanned present rest)
  end.

(** The command lines of a log, in order. *)
Fixpoint shell_cmds (l : list event) : list string :=
  match l with
  | [] => []
  | EvShell c :: rest => c :: shell_cmds rest
  | _ :: rest => shell_cmds rest
  end.

(** The names looked up on the path, in order. *)
Fixpoint probes (l : list event) : list string :=
  match l with
  | [] => []
  | EvWhich n :: rest => n :: probes rest
  | _ :: rest => probes rest
  end.

(** ** Vocabulary of the statements *)

Section Vocabulary.

Context `{Host}.

(** The [if]/[elif] chains of the install methods, read as tables from
    package manager to command line and description.  The lemmas on the
    install methods prove that each chain dispatches exactly its table. *)
Definition install_table : Type := list (string * (string * string)).

(** The action of the first entry whose manager is [pm], if any. *)
Fixpoint mapping (table : install_table) (pm : option string)
  : option (string * string) :=
  match table with
  | [] => None
  | (name, action) :: rest =>
      if pm_is pm name then Some action else mapping rest pm
  end.

Definition cmake_table : install_table :=
  [("winget", ("winget install Kitware.CMake", "Installing CMake via winget"));
   ("choco", ("choco install cmake", "Installing CMake via chocolatey"));
   ("apt", ("sudo apt update && sudo apt install -y cmake", "Installing CMake via apt"));
   ("dnf", ("sudo dnf install -y cmake", "Installing CMake via dnf"));
   ("yum", ("sudo yum install -y cmake", "Installing CMake via yum"));
   ("pacman", ("sudo pacman -S --noconfirm cmake", "Installing CMake via pacman"));
   ("brew", ("brew install cmake", "Installing CMake via homebrew"))].

Definition compiler_table : install_table :=
  [("apt", ("sudo apt install -y build-essential", "Installing GCC via apt"));
   ("dnf", ("sudo dnf groupinstall -y 'Development Tools'", "Installing GCC via dnf"));
   ("yum", ("sudo yum groupinstall -y 'Development Tools'", "Installing GCC via yum"));
   ("pacman", ("sudo pacman -S --noconfirm base-devel", "Installing GCC via pacman"));
   ("brew", ("xcode-select --install", "Installing Xcode Command Line Tools"))].

Definition git_table : install_table :=
  [("winget", ("winget install Git.Git", "Installing Git via winget"));
   ("choco", ("choco install git", "Installing Git via chocolatey"));
   ("apt", ("sudo apt install -y git", "Installing Git via apt"));
   ("dnf", ("sudo dnf install -y git", "Installing Git via dnf"));
   ("yum", ("sudo yum install -y git", "Installing Git via yum"));
   ("pacman", ("sudo pacman -S --noconfirm git", "Installing Git via pacman"));
   ("brew", ("brew install git", "Installing Git via homebrew"))].

Definition opencppcoverage_table : install_table :=
  [("choco", ("choco install opencppcoverage",
              "Installing OpenCppCoverage via chocolatey"))].

Definition gcovr_table : install_table :=
  [("apt", ("sudo apt install -y gcovr", "Installing gcovr via apt"));
   ("dnf", ("sudo dnf install -y gcovr", "Installing gcovr via dnf"));
   ("yum", ("sudo yum install -y gcovr", "Installing gcovr via yum"));
   ("pacman", ("sudo pacman -S --noconfirm gcovr", "Installing gcovr via pacman"));
   ("brew", ("brew install gcovr", "Installing gcovr via homebrew"))].

Definition lcov_table : install_table :=
  [("apt", ("sudo apt install -y lcov", "Installing lcov via apt"));
   ("dnf", ("sudo dnf install -y lcov", "Installing lcov via dnf"));
   ("yum", ("sudo yum install -y lcov", "Installing lcov via yum"));
   ("pacman", ("sudo pacman -S --noconfirm lcov", "Installing lcov via pacman"));
   ("brew", ("brew install lcov", "Installing lcov via homebrew"))].

Definition doxygen_table : install_table :=
  [("winget", ("winget install DimitriVanHeesch.Doxygen", "Installing Doxygen via winget"));
   ("choco", ("choco install doxygen.install", "Installing Doxygen via chocolatey"));
   ("apt", ("sudo apt install -y doxygen graphviz", "Installing Doxygen via apt"));
   ("dnf", ("sudo dnf install -y doxygen graphviz", "Installing Doxygen via dnf"));
   ("yum", ("sudo yum install -y doxygen graphviz", "Installing Doxygen via yum"));
   ("pacman", ("sudo pacman -S --noconfirm doxygen graphviz", "Installing Doxygen via pacman"));
   ("brew", ("brew install doxygen graphviz", "Installing Doxygen via homebrew"))].

(** What [run_command] logs for a command that was launched. *)
Definition run_command_log (cmd description : string) (p : CompletedProcess)
  : list event :=
  if (returncode p =? 0)%Z then
    [EvPrint ("📦 " ++ description); EvShell cmd;
     EvPrint ("✅ Success: " ++ description)]
  else
    [EvPrint ("📦 " ++ description); EvShell cmd;
     EvPrint ("❌ Failed: " ++ description); EvPrint ("Error: " ++ stderr p)].

(** A run whose log is preceded by the events that led to it. *)
Definition after (pre : list event) {A : Type} (r : run A) : run A :=
  mkRun (res r) (final r) (pre ++ log r).

(** What the compiler step prints on Windows when no compiler is found. *)
Definition windows_compiler_notice : list event :=
  [EvPrint "----- Installing C++ compiler -----";
   EvPrint "Please ensure one of the following is installed:";
   EvPrint "  - Visual Studio 2019/2022 with C++ workload";
   EvPrint "  - Visual Studio Build Tools";
   EvPrint "  - MinGW-w64";
   EvPrint "  - Clang/LLVM"].

(** What the two legs print when no install mapping exists. *)
Definition gcovr_unmapped_line (installed : bool) : event :=
  if installed then EvPrint "✅ gcovr: Already installed"
  else EvPrint "❌ gcovr not available via package manager. Please install manually.".

Definition lcov_unmapped_line (installed : bool) : event :=
  if installed then EvPrint "✅ lcov: Already installed"
  else EvPrint "❌ lcov not available via package manager. Please install manually.".

(** Two install commands in a row: the second runs whenever the first has
    returned, and the answer is the conjunction of the two. *)
Definition both_commands (c1 d1 c2 d2 : string) : M bool :=
  r1 <- run_command c1 d1;;
  r2 <- run_command c2 d2;;
  ret (r1 && r2).

(** [quiet m]: [m] looks nothing up on the path. *)
Definition quiet {A : Type} (m : M A) : Prop :=
  forall w : World, probes (log (m w)) = [].

(** [benign m]: the only exceptions [m] lets through are those
    [subprocess.run] raises for a reason other than the exit status; in
    particular it never exits the process. *)
Definition benign {A : Type} (m : M A) : Prop :=
  forall (w : World) (e : exn),
    res (m w) = Raise e -> e = OSError \/ e = UnicodeDecodeError.

(** A set of machines on which every command hands back an exit status (it
    is launched and its output is valid text) and which no command
    leaves. *)
Definition launches (good : World -> Prop) : Prop :=
  forall (w : World) (cmd : string),
    good w -> exists (p : CompletedProcess) (w' : World),
      shell w cmd = (Exited p, w') /\ good w'.

(** [returns good m]: started on a good machine, [m] returns a value and
    leaves a good machine. *)
Definition returns (good : World -> Prop) {A : Type} (m : M A) : Prop :=
  forall w : World,
    good w -> exists (a : A) (w' : World) (l : list event),
      m w = mkRun (Ok a) w' l /\ good w'.

(** The tools of a run, in the order [main] takes them. *)
Definition required_tools (self : ToolInstaller) : list (M bool) :=
  [install_cmake self; install_compiler self; install_git self;
   install_coverage_tools self].

Definition attempted (self : ToolInstaller) (install_optional : bool)
  : list (M bool) :=
  (required_tools self
   ++ if install_optional then [install_doxygen self] else [])%list.

(** One tool after the other, each on the machine its predecessors left. *)
Fixpoint run_all (tools : list (M bool)) : M (list bool) :=
  match tools with
  | [] => ret []
  | tool :: rest =>
      b <- tool;;
      bs <- run_all rest;;
      ret (b :: bs)
  end.

(** The number of successes among the answers of the tools. *)
Definition count_true (bs : list bool) : nat := length (filter id bs).

(** The detector and the installer [main] builds on machine [w]. *)
Definition detector_of (w : World) : SystemDetector :=
  let system := lower (platform_system w) in
  mkDetector system (lower (platform_machine w))
             (system =? "windows") (system =? "linux") (system =? "darwin").

Definition manager_of (w : World) : option string :=
  find (which w) (candidates (family (detector_of w))).

Definition installer_of (w : World) : ToolInstaller :=
  mkInstaller (detector_of w) (manager_of w).

Definition manager_scan (w : World) : list event :=
  map EvWhich (scanned (which w) (candidates (family (detector_of w)))).

(** What [main] logs before the first tool. *)
Definition header (w : World) : list event :=
  ([EvPrint "🔍 Development Environment Setup";
    EvPrint (str_mul "=" 50);
    EvPrint ("System: " ++ title (system (detector_of w)));
    EvPrint ("Architecture: " ++ machine (detector_of w))]
   ++ manager_scan w
   ++ (if truthy (manager_of w) then
         manager_scan w
         ++ [EvPrint ("Package Manager: "
                      ++ match manager_of w with Some m => m | None => "None" end)]
       else [EvPrint "Package Manager: None detected"])
   ++ [EvPrint (nl ++ "📋 Checking and installing required tools...");
       EvPrint (str_mul "-" 50)]
   ++ manager_scan w)%list.

(** What [main] logs between the required tools and the optional one. *)
Definition optional_banner : list event :=
  [EvPrint (nl ++ "📋 Installing optional tools..."); EvPrint (str_mul "-" 30)].

(** What [main] logs after the last tool. *)
Definition footer (success_count total_tools : nat) : list event :=
  ([EvPrint (nl ++ str_mul "=" 50);
    EvPrint ("✅ Setup complete: " ++ str_of_nat success_count ++ "/"
             ++ str_of_nat total_tools ++ " tools installed successfully")]
   ++ if (success_count =? total_tools)%nat then
        [EvPrint (nl ++ "🎉 All tools are ready! You can now build the project:");
         EvPrint "   mkdir build && cd build";
         EvPrint "   cmake ..";
         EvPrint "   cmake --build ."]
      else
        [EvPrint (nl ++ "⚠️  Some tools failed to install. Please install them manually.");
         EvPrint "   Check the error messages above for details."])%list.

(** Every tool of the run is evaluated in turn, each on the machine its
    predecessors left, whatever their answers; [main] ends after the footer
    and exits with status 1 there when some tool has failed. *)
Definition evaluates_every_tool (install_optional : bool) (w : World) : Prop :=
  exists (b1 b2 b3 b4 : bool) (w1 w2 w3 w4 : World) (l1 l2 l3 l4 : list event),
    install_cmake (installer_of w) w = mkRun (Ok b1) w1 l1 /\
    install_compiler (installer_of w) w1 = mkRun (Ok b2) w2 l2 /\
    install_git (installer_of w) w2 = mkRun (Ok b3) w3 l3 /\
    install_coverage_tools (installer_of w) w3 = mkRun (Ok b4) w4 l4 /\
    if install_optional then
      exists (b5 : bool) (w5 : World) (l5 : list event),
        install_doxygen (installer_of w) w4 = mkRun (Ok b5) w5 l5 /\
        main true w =
        mkRun (if b1 && b2 && b3 && b4 && b5 then Ok tt else Raise (SystemExit 1))
              w5
              (header w ++ l1 ++ l2 ++ l3 ++ l4 ++ optional_banner ++ l5
               ++ footer (count_true [b1; b2; b3; b4; b5]) 5)
    else
      main false w =
      mkRun (if b1 && b2 && b3 && b4 then Ok tt else Raise (SystemExit 1))
            w4
            (header w ++ l1 ++ l2 ++ l3 ++ l4
             ++ footer (count_true [b1; b2; b3; b4]) 4).

(** Every install table of the script. *)
Definition install_tables : list install_table :=
  [cmake_table; compiler_table; git_table; opencppcoverage_table;
   gcovr_table; lcov_table; doxygen_table].

(** [mapped pm cmd]: [cmd] is the command some table maps [pm] to. *)
Definition mapped (pm : option string) (cmd : string) : Prop :=
  exists (table : install_table) (description : string),
    In table install_tables /\ mapping table pm = Some (cmd, description).

(** [framed m]: when [m] dispatches no command the machine is as before. *)
Definition framed {A : Type} (m : M A) : Prop :=
  forall w : World, shell_cmds (log (m w)) = [] -> final (m w) = w.

(** [dispatches P m]: every command [m] dispatches satisfies [P]. *)
Definition dispatches (P : string -> Prop) {A : Type} (m : M A) : Prop :=
  forall (w : World) (cmd : string), In cmd (shell_cmds (log (m w))) -> P cmd.

(** [stops_at_command m]: when [m] ends on an exception other than
    [SystemExit], dispatching a command is the last thing it did. *)
Definition stops_at_command {A : Type} (m : M A) : Prop :=
  forall (w : World) (e : exn),
    res (m w) = Raise e -> (forall code, e <> SystemExit code) ->
    exists (before : list event) (cmd : string),
      log (m w) = (before ++ [EvShell cmd])%list.

(** The summary line of [main]. *)
Definition summary_line (success_count total_tools : nat) : event :=
  EvPrint ("✅ Setup complete: " ++ str_of_nat success_count ++ "/"
           ++ str_of_nat total_tools ++ " tools installed successfully").

(** The executables the required tools are looked up under. *)
Definition required_names : list string :=
  ["cmake"; "g++"; "clang++"; "cl"; "git"; "OpenCppCoverage"; "gcovr"; "lcov"].

(** Every required tool is on the path: cmake, one of the compiler
    candidates, git and the coverage tools of the platform. *)
Definition required_present (w : World) : Prop :=
  which w "cmake" = true /\
  (exists c : string, In c (compilers (installer_of w)) /\ which w c = true) /\
  which w "git" = true /\
  (if is_windows (detector_of w) then which w "OpenCppCoverage" = true
   else which w "gcovr" = true /\ which w "lcov" = true).

End Vocabulary.

(** ** Platform detection *)

Section Detection.

Context `{Host}.

Lemma get_package_manager_scan (d : SystemDetector) (w : World) :
  get_package_manager d w =
  mkRun (Ok (find (which w) (candidates (family d)))) w
        (map EvWhich (scanned (which w) (candidates (family d)))).
Proof.
  unfold get_package_manager, family.
  destruct (is_windows d); [|destruct (is_linux d); [|destruct (is_macos d)]];
    cbn -[String.eqb];
    unfold bind, shutil_which, ret; cbn;
    repeat (match goal with
            | |- context [which w ?n] => destruct (which w n); cbn
            end);
    reflexivity.
Qed.

Lemma find_member {A : Type} (p : A -> bool) (l : list A) :
  match find p l with
  | Some x => In x l /\ p x = true
  | None => forallb (fun x => negb (p x)) l = true
  end.
Proof.
  induction l as [|a l IH]; cbn; [reflexivity|].
  destruct (p a) eqn:E; cbn.
  - split; [left; reflexivity | exact E].
  - destruct (find p l); [|exact IH].
    destruct IH as [Hin Hp]. split; [right; exact Hin | exact Hp].
Qed.

(** C9.  Whatever the system identification string, detection returns a
    detector without raising and without touching the machine; its family
    is the one named by the lower-cased string (windows, linux, darwin for
    macos, unrecognized otherwise) and exactly the flag of that family is
    set; the detected package manager is none or a member of the family's
    candidate list, and it is none for an unrecognized family. *)
Theorem detection_total_and_in_family (w : World) :
  exists d : SystemDetector,
    SystemDetector_init w = mkRun (Ok d) w [] /\
    family d = family_of_system (platform_system w) /\
    (is_windows d, is_linux d, is_macos d) =
      match family_of_system (platform_system w) with
      | Windows => (true, false, false)
      | Linux => (false, true, false)
      | MacOS => (false, false, true)
      | Unrecognized => (false, false, false)
      end /\
    exists pm : option string,
      res (get_package_manager d w) = Ok pm /\
      final (get_package_manager d w) = w /\
      match pm with
      | Some m => In m (candidates (family_of_system (platform_system w)))
      | None => True
      end /\
      match family_of_system (platform_system w) with
      | Unrecognized => pm = None
      | _ => True
      end.
Proof.
  eexists. split; [reflexivity|].
  assert (F : family
                (mkDetector (lower (platform_system w)) (lower (platform_machine w))
                   (lower (platform_system w) =? "windows")
                   (lower (platform_system w) =? "linux")
                   (lower (platform_system w) =? "darwin"))
              = family_of_system (platform_system w)) by reflexivity.
  split; [exact F|].
  split.
  { unfold family_of_system. cbn [is_windows is_linux is_macos].
    destruct (lower (platform_system w) =? "windows") eqn:Ew.
    - apply String.eqb_eq in Ew. rewrite Ew. reflexivity.
    - destruct (lower (platform_system w) =? "linux") eqn:El.
      + apply String.eqb_eq in El. rewrite El. reflexivity.
      + destruct (lower (platform_system w) =? "darwin"); reflexivity. }
  rewrite get_package_manager_scan, F. cbn [res final].
  eexists. split; [reflexivity|]. split; [reflexivity|]. split.
  - pose proof (find_member (which w)
                  (candidates (family_of_system (platform_system w)))) as K.
    destruct (find (which w) (candidates (family_of_system (platform_system w))));
      [exact (proj1 K) | exact I].
  - destruct (family_of_system (platform_system w)); try exact I. reflexivity.
Qed.

Lemma find_first {A : Type} (p : A -> bool) (l : list A) (x : A) :
  find p l = Some x ->
  exists before after : list A,
    l = (before ++ x :: after)%list /\ p x = true /\
    forallb (fun y => negb (p y)) before = true.
Proof.
  induction l as [|a l IH]; cbn; [discriminate|].
  destruct (p a) eqn:E.
  - intros [= <-]. exists [], l. repeat split; assumption.
  - intros F. destruct (IH F) as (l1 & l2 & -> & Px & Hl1).
    exists (a :: l1), l2. cbn. rewrite E, Hl1. repeat split; assumption.
Qed.

(** C3.  The package manager returned is the first entry of the family's
    priority list that is executable on the path (none when no entry is);
    the scan probes the list in order and stops at that entry, so a single
    manager at most is selected.  With [apt] on the path of a linux host the
    answer is [apt], whether or not [dnf] is there too. *)
Theorem package_manager_priority (d : SystemDetector) (w : World) :
  res (get_package_manager d w) = Ok (find (which w) (candidates (family d))) /\
  final (get_package_manager d w) = w /\
  probes (log (get_package_manager d w)) =
    scanned (which w) (candidates (family d)) /\
  (forall m : string,
     res (get_package_manager d w) = Ok (Some m) ->
     exists before after : list string,
       candidates (family d) = (before ++ m :: after)%list /\
       which w m = true /\
       forallb (fun y => negb (which w y)) before = true) /\
  (family d = Linux -> which w "apt" = true ->
   res (get_package_manager d w) = Ok (Some "apt")).
Proof.
  rewrite get_package_manager_scan. cbn [res final log].
  split; [reflexivity|]. split; [reflexivity|]. split; [|split].
  - induction (scanned (which w) (candidates (family d))) as [|x l IH];
      cbn; [reflexivity | now rewrite IH].
  - intros m [= E]. apply find_first. exact E.
  - intros -> Ha. cbn. rewrite Ha. reflexivity.
Qed.

End Detection.

(** ** Shell commands and presence checks *)

Section Commands.

Context `{Host}.

Lemma check_tool_found (tool cmd : string) (w : World) :
  which w tool = true ->
  check_tool tool (Some cmd) None w = mkRun (Ok (true, "Installed")) w [EvWhich tool].
Proof.
  intros Hw. unfold check_tool, bind, shutil_which, ret. cbn [res final log].
  rewrite Hw. cbn [negb truthy]. rewrite andb_false_r. reflexivity.
Qed.

Lemma check_tool_missing (tool : string) (cmd min : option string) (w : World) :
  which w tool = false ->
  check_tool tool cmd min w = mkRun (Ok (false, "Not installed")) w [EvWhich tool].
Proof.
  intros Hw. unfold check_tool, bind, shutil_which, ret. cbn [res final log].
  rewrite Hw. reflexivity.
Qed.

(** With a minimum version the version command does run; its exit status is
    ignored, and only an exception of [subprocess.run] turns the answer into
    "not installed". *)
Lemma check_tool_versioned (tool cmd min : string) (w : World) :
  which w tool = true -> cmd <> "" -> min <> "" ->
  check_tool tool (Some cmd) (Some min) w =
  match shell w cmd with
  | (Exited _, w') => mkRun (Ok (true, "Installed")) w' [EvWhich tool; EvShell cmd]
  | (_, w') =>
      mkRun (Ok (false, "Version check failed")) w' [EvWhich tool; EvShell cmd]
  end.
Proof.
  intros Hw Hc Hm. apply String.eqb_neq in Hc, Hm.
  unfold check_tool, bind, shutil_which, ret, try_except, subprocess_run.
  cbn [res final log truthy]. rewrite Hw, Hc, Hm. cbn [negb andb].
  destruct (shell w cmd) as [[p| |] w']; reflexivity.
Qed.

Lemma run_command_exited (cmd description : string) (w w' : World)
      (p : CompletedProcess) :
  shell w cmd = (Exited p, w') ->
  run_command cmd description w =
  mkRun (Ok (returncode p =? 0)%Z) w' (run_command_log cmd description p).
Proof.
  intros Hs. unfold run_command, run_command_log, bind, try_except, print, ret,
    subprocess_run.
  cbn [res final log]. rewrite Hs. cbn [andb].
  destruct (returncode p =? 0)%Z; reflexivity.
Qed.

Lemma run_command_not_launched (cmd description : string) (w w' : World) :
  shell w cmd = (NotLaunched, w') ->
  run_command cmd description w =
  mkRun (Raise OSError) w' [EvPrint ("📦 " ++ description); EvShell cmd].
Proof.
  intros Hs. unfold run_command, bind, try_except, print, ret, subprocess_run.
  cbn [res final log]. rewrite Hs. reflexivity.
Qed.

Lemma run_command_undecodable (cmd description : string) (w w' : World) :
  shell w cmd = (Undecodable, w') ->
  run_command cmd description w =
  mkRun (Raise UnicodeDecodeError) w' [EvPrint ("📦 " ++ description); EvShell cmd].
Proof.
  intros Hs. unfold run_command, bind, try_except, print, ret, subprocess_run.
  cbn [res final log]. rewrite Hs. reflexivity.
Qed.

Lemma run_command_cmds (cmd description : string) (w : World) :
  shell_cmds (log (run_command cmd description w)) = [cmd].
Proof.
  destruct (shell w cmd) as [[p| |] w'] eqn:Hs.
  - rewrite (run_command_exited _ _ _ _ _ Hs). unfold run_command_log.
    destruct (returncode p =? 0)%Z; reflexivity.
  - rewrite (run_command_not_launched _ _ _ _ Hs). reflexivity.
  - rewrite (run_command_undecodable _ _ _ _ Hs). reflexivity.
Qed.

End Commands.

(** ** Equations of the effect monad *)

Section Equations.

Context `{Host}.

Lemma after_after {A : Type} (l l' : list event) (r : run A) :
  after l (after l' r) = after (l ++ l') r.
Proof. unfold after. cbn [res final log]. now rewrite app_assoc. Qed.

Lemma after_mkRun {A : Type} (l l' : list event) (o : outcome A) (w : World) :
  after l (mkRun o w l') = mkRun o w (l ++ l').
Proof. reflexivity. Qed.

Lemma bind_ok {A B : Type} (m : M A) (f : A -> M B) (w w' : World) (a : A)
      (l : list event) :
  m w = mkRun (Ok a) w' l -> bind m f w = after l (f a w').
Proof. intros E. unfold bind, after. rewrite E. reflexivity. Qed.

Lemma bind_raise {A B : Type} (m : M A) (f : A -> M B) (w w' : World) (e : exn)
      (l : list event) :
  m w = mkRun (Raise e) w' l -> bind m f w = mkRun (Raise e) w' l.
Proof. intros E. unfold bind. rewrite E. reflexivity. Qed.

Lemma bind_print {B : Type} (line : string) (k : unit -> M B) (w : World) :
  bind (print line) k w = after [EvPrint line] (k tt w).
Proof. reflexivity. Qed.

Lemma bind_which {B : Type} (name : string) (k : bool -> M B) (w : World) :
  bind (shutil_which name) k w = after [EvWhich name] (k (which w name) w).
Proof. reflexivity. Qed.

Lemma ret_run {A : Type} (a : A) (w : World) : ret a w = mkRun (Ok a) w [].
Proof. reflexivity. Qed.

Lemma print_run (line : string) (w : World) :
  print line w = mkRun (Ok tt) w [EvPrint line].
Proof. reflexivity. Qed.

(** Binding a computation to [ret (g r)] only maps its result. *)
Lemma bind_ret_map {A B : Type} (m : M A) (g : A -> B) (w : World) :
  bind m (fun a => ret (g a)) w =
  mkRun (match res (m w) with Ok a => Ok (g a) | Raise e => Raise e end)
        (final (m w)) (log (m w)).
Proof.
  unfold bind, ret. destruct (res (m w)); cbn [res final log];
    [now rewrite app_nil_r | reflexivity].
Qed.

Lemma res_after {A : Type} (l : list event) (r : run A) : res (after l r) = res r.
Proof. reflexivity. Qed.

Lemma final_after {A : Type} (l : list event) (r : run A) :
  final (after l r) = final r.
Proof. reflexivity. Qed.

Lemma log_after {A : Type} (l : list event) (r : run A) :
  log (after l r) = (l ++ log r)%list.
Proof. reflexivity. Qed.

Lemma shell_cmds_app (l l' : list event) :
  shell_cmds (l ++ l') = (shell_cmds l ++ shell_cmds l')%list.
Proof.
  induction l as [|[n|c|s] l IH]; cbn; [reflexivity| | |]; now rewrite IH.
Qed.

Lemma probes_app (l l' : list event) :
  probes (l ++ l') = (probes l ++ probes l')%list.
Proof.
  induction l as [|[n|c|s] l IH]; cbn; [reflexivity| | |]; now rewrite IH.
Qed.

End Equations.

(** Pushes the straight-line part of a method through the monad. *)
Ltac steps :=
  repeat (rewrite bind_print || rewrite bind_which || rewrite ret_run
          || rewrite after_after || rewrite after_mkRun || rewrite print_run);
  rewrite <- ?app_assoc, ?app_nil_r; cbn [app].

Ltac chain pm :=
  repeat match goal with
         | |- context [pm_is pm ?n] => destruct (pm_is pm n)
         end;
  steps; reflexivity.

(** ** The install methods, tool by tool *)

Section Provisioner.

Context `{Host}.

Lemma install_cmake_present (self : ToolInstaller) (w : World) :
  which w "cmake" = true ->
  install_cmake self w =
  mkRun (Ok true) w [EvWhich "cmake"; EvPrint "✅ CMake: Installed"].
Proof.
  intros Hw. unfold install_cmake.
  rewrite (bind_ok _ _ _ _ _ _ (check_tool_found _ _ _ Hw)).
  steps. reflexivity.
Qed.

Lemma install_cmake_absent (self : ToolInstaller) (w : World) :
  which w "cmake" = false ->
  install_cmake self w =
  match mapping cmake_table (pkg_mgr self) with
  | Some (cmd, description) =>
      after [EvWhich "cmake"; EvPrint "📦 Installing CMake..."]
            (run_command cmd description w)
  | None =>
      mkRun (Ok false) w
        [EvWhich "cmake"; EvPrint "📦 Installing CMake...";
         EvPrint "❌ No supported package manager found for CMake installation";
         EvPrint "Please install CMake manually from: https://cmake.org/download/"]
  end.
Proof.
  intros Hw. unfold install_cmake.
  rewrite (bind_ok _ _ _ _ _ _ (check_tool_missing _ _ _ _ Hw)).
  cbn [mapping cmake_table]. steps.
  chain (pkg_mgr self).
Qed.

Lemma install_git_present (self : ToolInstaller) (w : World) :
  which w "git" = true ->
  install_git self w = mkRun (Ok true) w [EvWhich "git"; EvPrint "✅ Git: Installed"].
Proof.
  intros Hw. unfold install_git.
  rewrite (bind_ok _ _ _ _ _ _ (check_tool_found _ _ _ Hw)).
  steps. reflexivity.
Qed.

Lemma install_git_absent (self : ToolInstaller) (w : World) :
  which w "git" = false ->
  install_git self w =
  match mapping git_table (pkg_mgr self) with
  | Some (cmd, description) => after [EvWhich "git"] (run_command cmd description w)
  | None =>
      mkRun (Ok false) w
        [EvWhich "git";
         EvPrint "❌ No supported package manager found for Git installation"]
  end.
Proof.
  intros Hw. unfold install_git.
  rewrite (bind_ok _ _ _ _ _ _ (check_tool_missing _ _ _ _ Hw)).
  cbn [mapping git_table]. steps.
  chain (pkg_mgr self).
Qed.

Lemma install_doxygen_present (self : ToolInstaller) (w : World) :
  which w "doxygen" = true ->
  install_doxygen self w =
  mkRun (Ok true) w [EvWhich "doxygen"; EvPrint "✅ Doxygen: Installed"].
Proof.
  intros Hw. unfold install_doxygen.
  rewrite (bind_ok _ _ _ _ _ _ (check_tool_found _ _ _ Hw)).
  steps. reflexivity.
Qed.

Lemma install_doxygen_absent (self : ToolInstaller) (w : World) :
  which w "doxygen" = false ->
  install_doxygen self w =
  match mapping doxygen_table (pkg_mgr self) with
  | Some (cmd, description) =>
      after [EvWhich "doxygen"; EvPrint "📦 Installing Doxygen..."]
            (run_command cmd description w)
  | None =>
      mkRun (Ok false) w
        [EvWhich "doxygen"; EvPrint "📦 Installing Doxygen...";
         EvPrint "❌ No supported package manager found for Doxygen installation"]
  end.
Proof.
  intros Hw. unfold install_doxygen.
  rewrite (bind_ok _ _ _ _ _ _ (check_tool_missing _ _ _ _ Hw)).
  cbn [mapping doxygen_table]. steps.
  chain (pkg_mgr self).
Qed.

(** The compiler loop is a scan for the first candidate on the path. *)
Lemma first_compiler_scan (l : list string) (w : World) :
  first_compiler l w =
  mkRun (Ok (find (which w) l)) w (map EvWhich (scanned (which w) l)).
Proof.
  induction l as [|c l IH]; [reflexivity|].
  cbn [first_compiler find scanned map]. rewrite bind_which.
  destruct (which w c).
  - steps. reflexivity.
  - rewrite IH. steps. reflexivity.
Qed.

Lemma compiler_found (l : list string) (c : string) (w : World) :
  In c l -> which w c = true -> exists c', find (which w) l = Some c'.
Proof.
  induction l as [|a l IH]; [intros []|].
  intros [->|Hin] Hc; cbn.
  - rewrite Hc. eexists; reflexivity.
  - destruct (which w a); [eexists; reflexivity | exact (IH Hin Hc)].
Qed.

Lemma scanned_absent (l : list string) (w : World) :
  find (which w) l = None -> scanned (which w) l = l.
Proof.
  induction l as [|a l IH]; [reflexivity|]. cbn.
  destruct (which w a); [discriminate|]. intros E. now rewrite (IH E).
Qed.

Lemma shell_cmds_probes (l : list string) : shell_cmds (map EvWhich l) = [].
Proof. induction l as [|a l IH]; [reflexivity | exact IH]. Qed.

Lemma install_compiler_present (self : ToolInstaller) (w : World) (c : string) :
  find (which w) (compilers self) = Some c ->
  install_compiler self w =
  mkRun (Ok true) w
    (map EvWhich (scanned (which w) (compilers self))
     ++ [EvPrint ("✅ C++ Compiler: " ++ c ++ " installed")]).
Proof.
  intros E. unfold install_compiler.
  rewrite (bind_ok _ _ _ _ _ _ (first_compiler_scan _ _)), E.
  steps. reflexivity.
Qed.

Lemma install_compiler_absent_windows (self : ToolInstaller) (w : World) :
  find (which w) (compilers self) = None ->
  is_windows (detector self) = true ->
  install_compiler self w =
  mkRun (Ok true) w (map EvWhich (compilers self) ++ windows_compiler_notice).
Proof.
  intros E Hwin. unfold install_compiler.
  rewrite (bind_ok _ _ _ _ _ _ (first_compiler_scan _ _)), E, Hwin.
  rewrite (scanned_absent _ _ E). steps. reflexivity.
Qed.

Lemma install_compiler_absent_unmapped (self : ToolInstaller) (w : World) :
  find (which w) (compilers self) = None ->
  is_windows (detector self) = false ->
  mapping compiler_table (pkg_mgr self) = None ->
  install_compiler self w =
  mkRun (Ok false) w
    (map EvWhich (compilers self)
     ++ [EvPrint "----- Installing C++ compiler -----";
         EvPrint "❌ No supported package manager found for compiler installation"]).
Proof.
  intros E Hwin. unfold install_compiler.
  rewrite (bind_ok _ _ _ _ _ _ (first_compiler_scan _ _)), E, Hwin.
  rewrite (scanned_absent _ _ E). cbn [mapping compiler_table]. steps.
  repeat match goal with
         | |- context [pm_is (pkg_mgr self) ?n] =>
             destruct (pm_is (pkg_mgr self) n); [discriminate|]
         end.
  intros _. steps. reflexivity.
Qed.

Lemma install_compiler_absent_mapped (self : ToolInstaller) (w : World)
      (cmd description : string) :
  find (which w) (compilers self) = None ->
  is_windows (detector self) = false ->
  mapping compiler_table (pkg_mgr self) = Some (cmd, description) ->
  res (install_compiler self w) = res (run_command cmd description w) /\
  final (install_compiler self w) = final (run_command cmd description w) /\
  shell_cmds (log (install_compiler self w)) = [cmd].
Proof.
  intros E Hwin. unfold install_compiler.
  rewrite (bind_ok _ _ _ _ _ _ (first_compiler_scan _ _)), E, Hwin.
  cbn [mapping compiler_table]. steps.
  repeat match goal with
         | |- context [pm_is (pkg_mgr self) ?n] => destruct (pm_is (pkg_mgr self) n)
         end;
    intros [= <- <-] || intros [=]; steps;
    rewrite res_after, final_after, log_after, shell_cmds_app, run_command_cmds;
    rewrite shell_cmds_app, shell_cmds_probes; repeat split.
Qed.

Lemma install_coverage_windows_present (self : ToolInstaller) (w : World) :
  is_windows (detector self) = true ->
  which w "OpenCppCoverage" = true ->
  install_coverage_tools self w =
  mkRun (Ok true) w
    [EvWhich "OpenCppCoverage"; EvPrint "✅ OpenCppCoverage: Installed"].
Proof.
  intros Hwin Hw. unfold install_coverage_tools. rewrite Hwin.
  rewrite bind_which, Hw. steps. reflexivity.
Qed.

Lemma install_coverage_windows_absent (self : ToolInstaller) (w : World) :
  is_windows (detector self) = true ->
  which w "OpenCppCoverage" = false ->
  install_coverage_tools self w =
  match mapping opencppcoverage_table (pkg_mgr self) with
  | Some (cmd, description) =>
      after [EvWhich "OpenCppCoverage"] (run_command cmd description w)
  | None =>
      mkRun (Ok false) w
        [EvWhich "OpenCppCoverage";
         EvPrint "❌ Please install OpenCppCoverage manually from:";
         EvPrint "https://github.com/OpenCppCoverage/OpenCppCoverage/releases"]
  end.
Proof.
  intros Hwin Hw. unfold install_coverage_tools. rewrite Hwin.
  rewrite bind_which, Hw. cbn [mapping opencppcoverage_table].
  chain (pkg_mgr self).
Qed.

Lemma install_coverage_both_present (self : ToolInstaller) (w : World) :
  is_windows (detector self) = false ->
  which w "gcovr" = true -> which w "lcov" = true ->
  install_coverage_tools self w =
  mkRun (Ok true) w
    [EvWhich "gcovr"; EvWhich "lcov";
     EvPrint "✅ gcovr: Installed"; EvPrint "✅ lcov: Installed"].
Proof.
  intros Hwin Hg Hl. unfold install_coverage_tools. rewrite Hwin.
  rewrite bind_which, Hg, bind_which, Hl. steps. reflexivity.
Qed.

Lemma install_coverage_unmapped (self : ToolInstaller) (w : World) :
  is_windows (detector self) = false ->
  which w "gcovr" && which w "lcov" = false ->
  mapping gcovr_table (pkg_mgr self) = None ->
  install_coverage_tools self w =
  mkRun (Ok false) w
    [EvWhich "gcovr"; EvWhich "lcov";
     gcovr_unmapped_line (which w "gcovr"); lcov_unmapped_line (which w "lcov")].
Proof.
  intros Hwin Hboth. unfold install_coverage_tools. rewrite Hwin.
  rewrite !bind_which, Hboth. cbv zeta. cbn [mapping gcovr_table].
  repeat match goal with
         | |- context [pm_is (pkg_mgr self) ?n] =>
             destruct (pm_is (pkg_mgr self) n); [discriminate|]
         end.
  intros _.
  destruct (which w "gcovr"), (which w "lcov"); try discriminate;
    cbn [negb]; unfold bind, print, ret; reflexivity.
Qed.

Lemma two_legs (m1 m2 : M bool) (w : World) :
  (success <- (r <- m1;; ret (true && r));;
   success <- (r <- m2;; ret (success && r));;
   ret success) w =
  (r1 <- m1;; r2 <- m2;; ret (r1 && r2)) w.
Proof.
  unfold bind, ret.
  destruct (m1 w) as [[b1|e1] w1 l1]; cbn [res final log]; [|reflexivity].
  destruct (m2 w1) as [[b2|e2] w2 l2]; cbn [res final log andb];
    rewrite ?app_nil_r; reflexivity.
Qed.

Lemma install_coverage_both_missing (self : ToolInstaller) (w : World)
      (c1 d1 c2 d2 : string) :
  is_windows (detector self) = false ->
  which w "gcovr" = false -> which w "lcov" = false ->
  mapping gcovr_table (pkg_mgr self) = Some (c1, d1) ->
  mapping lcov_table (pkg_mgr self) = Some (c2, d2) ->
  install_coverage_tools self w =
  after [EvWhich "gcovr"; EvWhich "lcov"] (both_commands c1 d1 c2 d2 w).
Proof.
  intros Hwin Hg Hl. unfold install_coverage_tools. rewrite Hwin.
  rewrite !bind_which, Hg, Hl. cbv zeta. cbn [mapping gcovr_table lcov_table andb negb].
  repeat match goal with
         | |- context [pm_is (pkg_mgr self) ?n] => destruct (pm_is (pkg_mgr self) n)
         end;
    intros [= <- <-] || intros [=];
    intros [= <- <-]; rewrite two_legs; steps; reflexivity.
Qed.

Lemma leg_then_note (m : M bool) (line : string) (w : World) :
  (success <- (r <- m;; ret (true && r));;
   success <- (print line;; ret success);;
   ret success) w =
  mkRun (res (m w)) (final (m w))
        (log (m w) ++ match res (m w) with Ok _ => [EvPrint line] | Raise _ => [] end).
Proof.
  unfold bind, print, ret.
  destruct (m w) as [[b|e] w1 l1]; cbn [res final log andb app];
    rewrite ?app_nil_r; reflexivity.
Qed.

Lemma note_then_leg (m : M bool) (line : string) (w : World) :
  (success <- (print line;; ret true);;
   success <- (r <- m;; ret (success && r));;
   ret success) w =
  after [EvPrint line] (m w).
Proof.
  unfold bind, print, ret, after. cbn [res final log app].
  destruct (m w) as [[b|e] w1 l1]; cbn [res final log andb app];
    rewrite ?app_nil_r; reflexivity.
Qed.

Lemma install_coverage_gcovr_missing (self : ToolInstaller) (w : World)
      (c1 d1 : string) :
  is_windows (detector self) = false ->
  which w "gcovr" = false -> which w "lcov" = true ->
  mapping gcovr_table (pkg_mgr self) = Some (c1, d1) ->
  res (install_coverage_tools self w) = res (run_command c1 d1 w) /\
  final (install_coverage_tools self w) = final (run_command c1 d1 w) /\
  shell_cmds (log (install_coverage_tools self w)) = [c1].
Proof.
  intros Hwin Hg Hl. unfold install_coverage_tools. rewrite Hwin.
  rewrite !bind_which, Hg, Hl. cbv zeta. cbn [mapping gcovr_table andb negb].
  repeat match goal with
         | |- context [pm_is (pkg_mgr self) ?n] => destruct (pm_is (pkg_mgr self) n)
         end;
    intros [= <- <-] || intros [=];
    rewrite leg_then_note, after_after, res_after, final_after, log_after;
    cbn [res final log app shell_cmds];
    rewrite shell_cmds_app, run_command_cmds;
    (repeat split);
    match goal with
    | |- context [res ?r] => destruct (res r); reflexivity
    end.
Qed.

Lemma install_coverage_lcov_missing (self : ToolInstaller) (w : World)
      (c2 d2 : string) :
  is_windows (detector self) = false ->
  which w "gcovr" = true -> which w "lcov" = false ->
  mapping lcov_table (pkg_mgr self) = Some (c2, d2) ->
  res (install_coverage_tools self w) = res (run_command c2 d2 w) /\
  final (install_coverage_tools self w) = final (run_command c2 d2 w) /\
  shell_cmds (log (install_coverage_tools self w)) = [c2].
Proof.
  intros Hwin Hg Hl. unfold install_coverage_tools. rewrite Hwin.
  rewrite !bind_which, Hg, Hl. cbv zeta. cbn [mapping lcov_table andb negb].
  repeat match goal with
         | |- context [pm_is (pkg_mgr self) ?n] => destruct (pm_is (pkg_mgr self) n)
         end;
    intros [= <- <-] || intros [=];
    rewrite note_then_leg, !after_after, res_after, final_after, log_after;
    cbn [app shell_cmds];
    rewrite run_command_cmds; repeat split.
Qed.

(** The two coverage tables have the same managers. *)
Lemma coverage_tables_agree (pm : option string) :
  match mapping gcovr_table pm, mapping lcov_table pm with
  | Some _, Some _ | None, None => True
  | _, _ => False
  end.
Proof.
  cbn [mapping gcovr_table lcov_table].
  repeat match goal with
         | |- context [pm_is pm ?n] => destruct (pm_is pm n)
         end; exact I.
Qed.

Lemma absent_find (l : list string) (w : World) :
  (forall c, In c l -> which w c = false) -> find (which w) l = None.
Proof.
  induction l as [|a l IH]; [reflexivity|]. intros Habs. cbn.
  rewrite (Habs a (or_introl eq_refl)). apply IH. intros c Hc.
  apply Habs. right. exact Hc.
Qed.

Lemma shell_cmds_app_probes (l : list string) (rest : list event) :
  shell_cmds (map EvWhich l ++ rest) = shell_cmds rest.
Proof. now rewrite shell_cmds_app, shell_cmds_probes. Qed.

(** C1 (as amended).  For cmake, git and doxygen, whose callers pass a
    version command but no minimum version, a tool found on the path is
    reported as installed and the version command is not run: the only
    event of the check is the path lookup, and the install method returns
    success after printing the status line. *)
Theorem version_command_not_run (self : ToolInstaller) (w : World) :
  (forall tool cmd : string,
     which w tool = true ->
     check_tool tool (Some cmd) None w =
     mkRun (Ok (true, "Installed")) w [EvWhich tool]) /\
  (which w "cmake" = true ->
   install_cmake self w =
   mkRun (Ok true) w [EvWhich "cmake"; EvPrint "✅ CMake: Installed"]) /\
  (which w "git" = true ->
   install_git self w =
   mkRun (Ok true) w [EvWhich "git"; EvPrint "✅ Git: Installed"]) /\
  (which w "doxygen" = true ->
   install_doxygen self w =
   mkRun (Ok true) w [EvWhich "doxygen"; EvPrint "✅ Doxygen: Installed"]).
Proof.
  split; [|split; [|split]].
  - intros tool cmd. apply check_tool_found.
  - apply install_cmake_present.
  - apply install_git_present.
  - apply install_doxygen_present.
Qed.

(** C6.  A tool whose executable is on the path is reported as a success,
    the machine is left as it was and no shell command is dispatched: for
    cmake, git and doxygen; for the compiler as soon as one candidate is
    found; for OpenCppCoverage on Windows; for the coverage pair elsewhere
    when both gcovr and lcov are found.  When only one of gcovr and lcov is
    found, nothing is dispatched for that one: the answer and the single
    command, if any, are those of the missing one. *)
Theorem present_tool_dispatches_nothing (self : ToolInstaller) (w : World) :
  (which w "cmake" = true ->
   install_cmake self w =
   mkRun (Ok true) w [EvWhich "cmake"; EvPrint "✅ CMake: Installed"]) /\
  (which w "git" = true ->
   install_git self w =
   mkRun (Ok true) w [EvWhich "git"; EvPrint "✅ Git: Installed"]) /\
  (which w "doxygen" = true ->
   install_doxygen self w =
   mkRun (Ok true) w [EvWhich "doxygen"; EvPrint "✅ Doxygen: Installed"]) /\
  (forall c : string,
     In c (compilers self) -> which w c = true ->
     res (install_compiler self w) = Ok true /\
     final (install_compiler self w) = w /\
     shell_cmds (log (install_compiler self w)) = []) /\
  (is_windows (detector self) = true -> which w "OpenCppCoverage" = true ->
   install_coverage_tools self w =
   mkRun (Ok true) w
     [EvWhich "OpenCppCoverage"; EvPrint "✅ OpenCppCoverage: Installed"]) /\
  (is_windows (detector self) = false ->
   which w "gcovr" = true -> which w "lcov" = true ->
   install_coverage_tools self w =
   mkRun (Ok true) w
     [EvWhich "gcovr"; EvWhich "lcov";
      EvPrint "✅ gcovr: Installed"; EvPrint "✅ lcov: Installed"]) /\
  (is_windows (detector self) = false ->
   which w "gcovr" = true -> which w "lcov" = false ->
   match mapping lcov_table (pkg_mgr self) with
   | Some (cmd, description) =>
       res (install_coverage_tools self w) = res (run_command cmd description w) /\
       shell_cmds (log (install_coverage_tools self w)) = [cmd]
   | None =>
       res (install_coverage_tools self w) = Ok false /\
       shell_cmds (log (install_coverage_tools self w)) = []
   end) /\
  (is_windows (detector self) = false ->
   which w "gcovr" = false -> which w "lcov" = true ->
   match mapping gcovr_table (pkg_mgr self) with
   | Some (cmd, description) =>
       res (install_coverage_tools self w) = res (run_command cmd description w) /\
       shell_cmds (log (install_coverage_tools self w)) = [cmd]
   | None =>
       res (install_coverage_tools self w) = Ok false /\
       shell_cmds (log (install_coverage_tools self w)) = []
   end).
Proof.
  repeat match goal with |- _ /\ _ => split end.
  - apply install_cmake_present.
  - apply install_git_present.
  - apply install_doxygen_present.
  - intros c Hin Hc. destruct (compiler_found _ _ _ Hin Hc) as [c' E].
    rewrite (install_compiler_present _ _ _ E). cbn [res final log].
    rewrite shell_cmds_app_probes. repeat split.
  - apply install_coverage_windows_present.
  - apply install_coverage_both_present.
  - intros Hwin Hg Hl.
    pose proof (coverage_tables_agree (pkg_mgr self)) as Agree.
    destruct (mapping lcov_table (pkg_mgr self)) as [[cmd d]|] eqn:E.
    + destruct (install_coverage_lcov_missing _ _ _ _ Hwin Hg Hl E) as (R & _ & C).
      split; assumption.
    + destruct (mapping gcovr_table (pkg_mgr self)) eqn:G; [contradiction|].
      rewrite (install_coverage_unmapped self w Hwin); trivial.
      * rewrite Hg, Hl. split; reflexivity.
      * now rewrite Hg, Hl.
  - intros Hwin Hg Hl.
    destruct (mapping gcovr_table (pkg_mgr self)) as [[cmd d]|] eqn:E.
    + destruct (install_coverage_gcovr_missing _ _ _ _ Hwin Hg Hl E) as (R & _ & C).
      split; assumption.
    + rewrite (install_coverage_unmapped self w Hwin); trivial.
      * rewrite Hg, Hl. split; reflexivity.
      * now rewrite Hg.
Qed.

Lemma mapping_none (table : install_table) : mapping table None = None.
Proof. induction table as [|[name action] rest IH]; [reflexivity | exact IH]. Qed.

Lemma unrecognized_has_no_manager (d : SystemDetector) (w : World) :
  family d = Unrecognized ->
  ToolInstaller_init d w = mkRun (Ok (mkInstaller d None)) w [].
Proof.
  intros F. unfold ToolInstaller_init.
  rewrite (bind_ok _ _ _ _ _ _ (get_package_manager_scan d w)), F.
  reflexivity.
Qed.

(** C7 (as amended).  A tool that is absent and has no install mapping for
    the detected package manager makes its install method return failure
    after printing a failure message, on an unchanged machine and without
    any shell command: for cmake, git, doxygen, for the compiler off
    Windows, for OpenCppCoverage on Windows and for gcovr and lcov
    elsewhere.  No package manager means no mapping in any table, and an
    unrecognized family has no package manager.  (The compiler on Windows is
    the exception: it is never installed and always reported as a
    success.) *)
Theorem unmapped_tool_fails_without_command (self : ToolInstaller) (w : World) :
  (which w "cmake" = false -> mapping cmake_table (pkg_mgr self) = None ->
   install_cmake self w =
   mkRun (Ok false) w
     [EvWhich "cmake"; EvPrint "📦 Installing CMake...";
      EvPrint "❌ No supported package manager found for CMake installation";
      EvPrint "Please install CMake manually from: https://cmake.org/download/"]) /\
  ((forall c, In c (compilers self) -> which w c = false) ->
   is_windows (detector self) = false ->
   mapping compiler_table (pkg_mgr self) = None ->
   install_compiler self w =
   mkRun (Ok false) w
     (map EvWhich (compilers self)
      ++ [EvPrint "----- Installing C++ compiler -----";
          EvPrint "❌ No supported package manager found for compiler installation"])) /\
  (which w "git" = false -> mapping git_table (pkg_mgr self) = None ->
   install_git self w =
   mkRun (Ok false) w
     [EvWhich "git";
      EvPrint "❌ No supported package manager found for Git installation"]) /\
  (is_windows (detector self) = true -> which w "OpenCppCoverage" = false ->
   mapping opencppcoverage_table (pkg_mgr self) = None ->
   install_coverage_tools self w =
   mkRun (Ok false) w
     [EvWhich "OpenCppCoverage";
      EvPrint "❌ Please install OpenCppCoverage manually from:";
      EvPrint "https://github.com/OpenCppCoverage/OpenCppCoverage/releases"]) /\
  (is_windows (detector self) = false ->
   which w "gcovr" && which w "lcov" = false ->
   mapping gcovr_table (pkg_mgr self) = None ->
   mapping lcov_table (pkg_mgr self) = None /\
   install_coverage_tools self w =
   mkRun (Ok false) w
     [EvWhich "gcovr"; EvWhich "lcov";
      gcovr_unmapped_line (which w "gcovr"); lcov_unmapped_line (which w "lcov")]) /\
  (which w "doxygen" = false -> mapping doxygen_table (pkg_mgr self) = None ->
   install_doxygen self w =
   mkRun (Ok false) w
     [EvWhich "doxygen"; EvPrint "📦 Installing Doxygen...";
      EvPrint "❌ No supported package manager found for Doxygen installation"]) /\
  (forall table : install_table, mapping table None = None) /\
  (family (detector self) = Unrecognized ->
   ToolInstaller_init (detector self) w =
   mkRun (Ok (mkInstaller (detector self) None)) w []).
Proof.
  repeat match goal with |- _ /\ _ => split end.
  - intros Hw Hm. now rewrite (install_cmake_absent _ _ Hw), Hm.
  - intros Habs Hwin Hm.
    apply install_compiler_absent_unmapped; trivial. now apply absent_find.
  - intros Hw Hm. now rewrite (install_git_absent _ _ Hw), Hm.
  - intros Hwin Hw Hm. now rewrite (install_coverage_windows_absent _ _ Hwin Hw), Hm.
  - intros Hwin Hboth Hm. split.
    + pose proof (coverage_tables_agree (pkg_mgr self)) as Agree.
      rewrite Hm in Agree. now destruct (mapping lcov_table (pkg_mgr self)).
    + now apply install_coverage_unmapped.
  - intros Hw Hm. now rewrite (install_doxygen_absent _ _ Hw), Hm.
  - apply mapping_none.
  - apply unrecognized_has_no_manager.
Qed.

(** C5 (as amended).  The compiler candidates are g++ and clang++, and cl
    as well on Windows; the check succeeds without any command as soon as
    one of them is on the path.  When none is, Windows only prints a notice
    and reports success; elsewhere the command mapped to the detected
    package manager (apt, dnf, yum, pacman or brew) is the one command
    dispatched and its exit status decides the answer, and with no such
    mapping nothing is dispatched and the answer is failure. *)
Theorem compiler_check (self : ToolInstaller) (w : World) :
  compilers self =
    (if is_windows (detector self) then ["g++"; "clang++"; "cl"]
     else ["g++"; "clang++"]) /\
  (forall c : string,
     In c (compilers self) -> which w c = true ->
     res (install_compiler self w) = Ok true /\
     final (install_compiler self w) = w /\
     shell_cmds (log (install_compiler self w)) = []) /\
  ((forall c, In c (compilers self) -> which w c = false) ->
   is_windows (detector self) = true ->
   install_compiler self w =
   mkRun (Ok true) w (map EvWhich (compilers self) ++ windows_compiler_notice)) /\
  ((forall c, In c (compilers self) -> which w c = false) ->
   is_windows (detector self) = false ->
   forall cmd description : string,
     mapping compiler_table (pkg_mgr self) = Some (cmd, description) ->
     shell_cmds (log (install_compiler self w)) = [cmd] /\
     forall (p : CompletedProcess) (w' : World),
       shell w cmd = (Exited p, w') ->
       res (install_compiler self w) = Ok (returncode p =? 0)%Z /\
       final (install_compiler self w) = w') /\
  ((forall c, In c (compilers self) -> which w c = false) ->
   is_windows (detector self) = false ->
   mapping compiler_table (pkg_mgr self) = None ->
   res (install_compiler self w) = Ok false /\
   final (install_compiler self w) = w /\
   shell_cmds (log (install_compiler self w)) = []).
Proof.
  repeat match goal with |- _ /\ _ => split end.
  - reflexivity.
  - intros c Hin Hc. destruct (compiler_found _ _ _ Hin Hc) as [c' E].
    rewrite (install_compiler_present _ _ _ E). cbn [res final log].
    rewrite shell_cmds_app_probes. repeat split.
  - intros Habs Hwin. apply install_compiler_absent_windows; trivial.
    now apply absent_find.
  - intros Habs Hwin cmd description Hm.
    destruct (install_compiler_absent_mapped self w cmd description)
      as (R & F & C); trivial; [now apply absent_find|].
    split; [exact C|]. intros p w' S.
    rewrite R, F, (run_command_exited _ _ _ _ _ S). split; reflexivity.
  - intros Habs Hwin Hm.
    rewrite (install_compiler_absent_unmapped self w); trivial;
      [|now apply absent_find].
    cbn [res final log]. rewrite shell_cmds_app_probes. repeat split.
Qed.


End Provisioner.

(** ** Three properties that compose along the monad *)

Section Compositional.

Context `{Host}.

Lemma quiet_ret {A : Type} (a : A) : quiet (ret a).
Proof. intros w. reflexivity. Qed.

Lemma quiet_print (line : string) : quiet (print line).
Proof. intros w. reflexivity. Qed.

Lemma quiet_bind {A B : Type} (m : M A) (f : A -> M B) :
  quiet m -> (forall a, quiet (f a)) -> quiet (bind m f).
Proof.
  intros Hm Hf w. unfold bind. specialize (Hm w).
  destruct (m w) as [[a|e] w1 l1]; cbn [res final log] in *; [|exact Hm].
  now rewrite probes_app, Hm, (Hf a w1).
Qed.

Lemma quiet_run_command (cmd description : string) :
  quiet (run_command cmd description).
Proof.
  intros w. destruct (shell w cmd) as [[p| |] w'] eqn:Hs.
  - rewrite (run_command_exited _ _ _ _ _ Hs). unfold run_command_log.
    destruct (returncode p =? 0)%Z; reflexivity.
  - rewrite (run_command_not_launched _ _ _ _ Hs). reflexivity.
  - rewrite (run_command_undecodable _ _ _ _ Hs). reflexivity.
Qed.

Lemma benign_ret {A : Type} (a : A) : benign (ret a).
Proof. intros w e [=]. Qed.

Lemma benign_print (line : string) : benign (print line).
Proof. intros w e [=]. Qed.

Lemma benign_which (name : string) : benign (shutil_which name).
Proof. intros w e [=]. Qed.

Lemma benign_bind {A B : Type} (m : M A) (f : A -> M B) :
  benign m -> (forall a, benign (f a)) -> benign (bind m f).
Proof.
  intros Hm Hf w e. unfold bind. specialize (Hm w).
  destruct (m w) as [[a|e1] w1 l1]; cbn [res final log] in *.
  - apply Hf.
  - intros [= <-]. now apply Hm.
Qed.

Lemma benign_run_command (cmd description : string) :
  benign (run_command cmd description).
Proof.
  intros w e. destruct (shell w cmd) as [[p| |] w'] eqn:Hs.
  - rewrite (run_command_exited _ _ _ _ _ Hs). intros [=].
  - rewrite (run_command_not_launched _ _ _ _ Hs). intros [= <-]. now left.
  - rewrite (run_command_undecodable _ _ _ _ Hs). intros [= <-]. now right.
Qed.

Lemma check_tool_unversioned (tool : string) (cmd : option string) (w : World) :
  check_tool tool cmd None w =
  mkRun (Ok (if which w tool then (true, "Installed") else (false, "Not installed")))
        w [EvWhich tool].
Proof.
  unfold check_tool. rewrite bind_which.
  destruct (which w tool); cbn [negb truthy]; rewrite ?andb_false_r; reflexivity.
Qed.

Lemma benign_check_tool (tool : string) (cmd : option string) :
  benign (check_tool tool cmd None).
Proof. intros w e. rewrite check_tool_unversioned. intros [=]. Qed.

Lemma benign_first_compiler (l : list string) : benign (first_compiler l).
Proof. intros w e. rewrite first_compiler_scan. intros [=]. Qed.

Lemma returns_ret (good : World -> Prop) {A : Type} (a : A) : returns good (ret a).
Proof. intros w G. now exists a, w, []. Qed.

Lemma returns_print (good : World -> Prop) (line : string) :
  returns good (print line).
Proof. intros w G. now exists tt, w, [EvPrint line]. Qed.

Lemma returns_which (good : World -> Prop) (name : string) :
  returns good (shutil_which name).
Proof. intros w G. now exists (which w name), w, [EvWhich name]. Qed.

Lemma returns_bind (good : World -> Prop) {A B : Type} (m : M A) (f : A -> M B) :
  returns good m -> (forall a, returns good (f a)) -> returns good (bind m f).
Proof.
  intros Hm Hf w G. destruct (Hm w G) as (a & w1 & l1 & E1 & G1).
  destruct (Hf a w1 G1) as (b & w2 & l2 & E2 & G2).
  exists b, w2, (l1 ++ l2)%list. split; [|exact G2].
  rewrite (bind_ok _ _ _ _ _ _ E1), E2. reflexivity.
Qed.

Lemma returns_run_command (good : World -> Prop) (cmd description : string) :
  launches good -> returns good (run_command cmd description).
Proof.
  intros L w G. destruct (L w cmd G) as (p & w' & Hs & G').
  exists (returncode p =? 0)%Z, w', (run_command_log cmd description p).
  split; [now apply run_command_exited | exact G'].
Qed.

Lemma returns_check_tool (good : World -> Prop) (tool : string) (cmd : option string) :
  returns good (check_tool tool cmd None).
Proof.
  intros w G. rewrite check_tool_unversioned. do 3 eexists. split; [reflexivity|exact G].
Qed.

Lemma returns_first_compiler (good : World -> Prop) (l : list string) :
  returns good (first_compiler l).
Proof.
  intros w G. rewrite first_compiler_scan. do 3 eexists. split; [reflexivity|exact G].
Qed.

End Compositional.

(** Walks through a method along its binds and branches. *)
Ltac walk leaf :=
  repeat first
    [ leaf
    | match goal with
      | |- _ (bind _ _) => fail 1
      | |- _ (if ?b then _ else _) => destruct b
      | |- _ (let '(_, _) := ?p in _) => destruct p
      | |- _ (match ?x with Some _ => _ | None => _ end) => destruct x
      end ].

Ltac quiet_leaf :=
  first [ apply quiet_ret | apply quiet_print | apply quiet_run_command
        | apply quiet_bind; [|intro] ].

Ltac benign_leaf :=
  first [ apply benign_ret | apply benign_print | apply benign_which
        | apply benign_run_command | apply benign_check_tool
        | apply benign_first_compiler | apply benign_bind; [|intro] ].

Ltac returns_leaf :=
  first [ apply returns_ret | apply returns_print | apply returns_which
        | apply returns_run_command; assumption | apply returns_check_tool
        | apply returns_first_compiler | apply returns_bind; [|intro] ].

Section Methods.

Context `{Host}.

Lemma benign_install_cmake (self : ToolInstaller) : benign (install_cmake self).
Proof. unfold install_cmake. walk benign_leaf. Qed.

Lemma benign_install_compiler (self : ToolInstaller) : benign (install_compiler self).
Proof. unfold install_compiler. walk benign_leaf. Qed.

Lemma benign_install_git (self : ToolInstaller) : benign (install_git self).
Proof. unfold install_git. walk benign_leaf. Qed.

Lemma benign_install_coverage_tools (self : ToolInstaller) :
  benign (install_coverage_tools self).
Proof. unfold install_coverage_tools. cbv zeta. walk benign_leaf. Qed.

Lemma benign_install_doxygen (self : ToolInstaller) : benign (install_doxygen self).
Proof. unfold install_doxygen. walk benign_leaf. Qed.

Section Launching.

Variable good : World -> Prop.
Hypothesis good_launches : launches good.

Lemma returns_install_cmake (self : ToolInstaller) :
  returns good (install_cmake self).
Proof. unfold install_cmake. walk returns_leaf. Qed.

Lemma returns_install_compiler (self : ToolInstaller) :
  returns good (install_compiler self).
Proof. unfold install_compiler. walk returns_leaf. Qed.

Lemma returns_install_git (self : ToolInstaller) :
  returns good (install_git self).
Proof. unfold install_git. walk returns_leaf. Qed.

Lemma returns_install_coverage_tools (self : ToolInstaller) :
  returns good (install_coverage_tools self).
Proof. unfold install_coverage_tools. cbv zeta. walk returns_leaf. Qed.

Lemma returns_install_doxygen (self : ToolInstaller) :
  returns good (install_doxygen self).
Proof. unfold install_doxygen. walk returns_leaf. Qed.

End Launching.

Lemma probes_map (l : list string) : probes (map EvWhich l) = l.
Proof. induction l as [|a l IH]; [reflexivity | cbn; now rewrite IH]. Qed.

Lemma install_compiler_probes (self : ToolInstaller) (w : World) :
  probes (log (install_compiler self w)) = scanned (which w) (compilers self).
Proof.
  unfold install_compiler.
  rewrite (bind_ok _ _ _ _ _ _ (first_compiler_scan _ _)), log_after, probes_app.
  match goal with
  | |- (_ ++ probes (log (?k w)))%list = _ =>
      assert (Q : quiet k) by walk quiet_leaf; rewrite (Q w)
  end.
  now rewrite app_nil_r, probes_map.
Qed.

Lemma install_coverage_probes (self : ToolInstaller) (w : World) :
  is_windows (detector self) = false ->
  probes (log (install_coverage_tools self w)) = ["gcovr"; "lcov"].
Proof.
  intros Hwin. unfold install_coverage_tools. rewrite Hwin. cbv zeta.
  rewrite !bind_which, after_after, log_after, probes_app.
  match goal with
  | |- (_ ++ probes (log (?k w)))%list = _ =>
      assert (Q : quiet k) by walk quiet_leaf; rewrite (Q w)
  end.
  reflexivity.
Qed.

Lemma log_bind_prefix {A B : Type} (m : M A) (f : A -> M B) (w : World) :
  exists rest : list event, log (bind m f w) = (log (m w) ++ rest)%list.
Proof.
  unfold bind. destruct (res (m w)); cbn [log].
  - eexists; reflexivity.
  - exists []. now rewrite app_nil_r.
Qed.

(** Off Windows the coverage step succeeds without running anything only
    when both tools are already there. *)
Lemma install_coverage_needs_both (self : ToolInstaller) (w : World) :
  is_windows (detector self) = false ->
  res (install_coverage_tools self w) = Ok true /\
  shell_cmds (log (install_coverage_tools self w)) = [] <->
  which w "gcovr" = true /\ which w "lcov" = true.
Proof.
  intros Hwin. split.
  - intros [R C].
    pose proof (coverage_tables_agree (pkg_mgr self)) as Agree.
    destruct (which w "gcovr") eqn:Hg, (which w "lcov") eqn:Hl;
      [split; reflexivity | exfalso .. ];
      destruct (mapping gcovr_table (pkg_mgr self)) as [[c1 d1]|] eqn:E1;
      destruct (mapping lcov_table (pkg_mgr self)) as [[c2 d2]|] eqn:E2;
      try contradiction.
    + destruct (install_coverage_lcov_missing _ _ _ _ Hwin Hg Hl E2) as (_ & _ & K).
      rewrite K in C. discriminate.
    + rewrite (install_coverage_unmapped self w Hwin) in R; trivial;
        [discriminate | now rewrite Hg, Hl].
    + destruct (install_coverage_gcovr_missing _ _ _ _ Hwin Hg Hl E1) as (_ & _ & K).
      rewrite K in C. discriminate.
    + rewrite (install_coverage_unmapped self w Hwin) in R; trivial;
        [discriminate | now rewrite Hg].
    + rewrite (install_coverage_both_missing self w c1 d1 c2 d2) in C; trivial.
      unfold both_commands in C. rewrite log_after in C.
      destruct (log_bind_prefix (run_command c1 d1)
                  (fun r1 => r2 <- run_command c2 d2;; ret (r1 && r2)) w)
        as [rest K].
      rewrite K, !shell_cmds_app, run_command_cmds in C. discriminate.
    + rewrite (install_coverage_unmapped self w Hwin) in R; trivial;
        [discriminate | now rewrite Hg].
  - intros [Hg Hl]. rewrite (install_coverage_both_present _ _ Hwin Hg Hl).
    split; reflexivity.
Qed.

(** C10.  When the lower-cased system string is not "windows" (linux,
    darwin or anything unrecognized), the installer built on the detector
    takes the non-Windows branches: the compiler candidates are exactly g++
    and clang++ and [cl] is never looked up; the coverage step looks up
    gcovr and lcov, never OpenCppCoverage, and succeeds without running a
    command exactly when both of them are on the path. *)
Theorem non_windows_branches (w0 w : World) (d : SystemDetector)
        (pm : option string) :
  res (SystemDetector_init w0) = Ok d ->
  lower (platform_system w0) <> "windows" ->
  is_windows d = false /\
  compilers (mkInstaller d pm) = ["g++"; "clang++"] /\
  probes (log (install_compiler (mkInstaller d pm) w)) =
    scanned (which w) ["g++"; "clang++"] /\
  ~ In "cl" (probes (log (install_compiler (mkInstaller d pm) w))) /\
  probes (log (install_coverage_tools (mkInstaller d pm) w)) = ["gcovr"; "lcov"] /\
  (res (install_coverage_tools (mkInstaller d pm) w) = Ok true /\
   shell_cmds (log (install_coverage_tools (mkInstaller d pm) w)) = [] <->
   which w "gcovr" = true /\ which w "lcov" = true).
Proof.
  intros [= <-] Hsys. apply String.eqb_neq in Hsys.
  match goal with |- is_windows ?d = false /\ _ => set (det := d) end.
  assert (Hwin : is_windows det = false) by exact Hsys.
  assert (Hc : compilers (mkInstaller det pm) = ["g++"; "clang++"]).
  { unfold compilers. cbn [detector]. now rewrite Hwin. }
  split; [exact Hwin|]. split; [exact Hc|].
  rewrite install_compiler_probes, Hc.
  split; [reflexivity|]. split.
  - cbn [scanned]. destruct (which w "g++"); [|destruct (which w "clang++")];
      cbn; intros K; repeat (destruct K as [K|K]; [discriminate K|]); exact K.
  - split.
    + now apply install_coverage_probes.
    + now apply install_coverage_needs_both.
Qed.

End Methods.

(** ** The whole run *)

Section Run.

Context `{Host}.

Lemma ToolInstaller_init_run (w : World) :
  ToolInstaller_init (detector_of w) w =
  mkRun (Ok (installer_of w)) w (manager_scan w).
Proof.
  unfold ToolInstaller_init.
  rewrite (bind_ok _ _ _ _ _ _ (get_package_manager_scan _ w)).
  steps. reflexivity.
Qed.

(** [main] is its header, the counting part and its footer; it exits with
    status 1 after the footer when the two counters differ. *)
Lemma main_run (install_optional : bool) (w : World) :
  main install_optional w =
  let r := provision (installer_of w) install_optional w in
  match res r with
  | Ok (success_count, total_tools) =>
      mkRun (if (success_count =? total_tools)%nat then Ok tt
             else Raise (SystemExit 1))
            (final r)
            (header w ++ log r ++ footer success_count total_tools)
  | Raise e => mkRun (Raise e) (final r) (header w ++ log r)
  end.
Proof.
  unfold main. rewrite !bind_print.
  rewrite (bind_ok _ _ w w (detector_of w) [] eq_refl). rewrite !bind_print.
  rewrite (bind_ok _ _ _ _ _ _ (get_package_manager_scan _ w)).
  fold (manager_of w). fold (manager_scan w).
  assert (Note :
    (if truthy (manager_of w)
     then pm' <- get_package_manager (detector_of w);;
          print ("Package Manager: " ++ match pm' with Some m => m | None => "None" end)
     else print "Package Manager: None detected") w =
    mkRun (Ok tt) w
      (if truthy (manager_of w) then
         manager_scan w
         ++ [EvPrint ("Package Manager: "
                      ++ match manager_of w with Some m => m | None => "None" end)]
       else [EvPrint "Package Manager: None detected"])).
  { destruct (truthy (manager_of w)); [|reflexivity].
    rewrite (bind_ok _ _ _ _ _ _ (get_package_manager_scan _ w)).
    steps. reflexivity. }
  rewrite (bind_ok _ _ _ _ _ _ Note). rewrite !bind_print.
  rewrite (bind_ok _ _ _ _ _ _ (ToolInstaller_init_run w)).
  cbv zeta. unfold header, footer.
  destruct (provision (installer_of w) install_optional w) as [[[sc tt']|e] w' l] eqn:E.
  - rewrite (bind_ok _ _ _ _ _ _ E). cbn [res final log]. rewrite !bind_print.
    destruct (sc =? tt')%nat.
    + steps. reflexivity.
    + rewrite !bind_print. unfold raise. steps. reflexivity.
  - rewrite (bind_raise _ _ _ _ _ _ E). cbn [res final log]. steps. reflexivity.
Qed.

Lemma count_true_le (bs : list bool) : count_true bs <= length bs.
Proof. apply filter_length_le. Qed.

Lemma count_true_all (bs : list bool) :
  count_true bs = length bs <-> forallb id bs = true.
Proof.
  unfold count_true. induction bs as [|b bs IH]; cbn; [tauto|].
  destruct b; cbn.
  - rewrite <- IH. lia.
  - pose proof (filter_length_le id bs). split; [lia | discriminate].
Qed.

(** With the optional tool left out, the counters are the number of
    successes among the four required tools and 4. *)
Lemma provision_required (self : ToolInstaller) (w w1 w2 w3 w4 : World)
      (b1 b2 b3 b4 : bool) (l1 l2 l3 l4 : list event) :
  install_cmake self w = mkRun (Ok b1) w1 l1 ->
  install_compiler self w1 = mkRun (Ok b2) w2 l2 ->
  install_git self w2 = mkRun (Ok b3) w3 l3 ->
  install_coverage_tools self w3 = mkRun (Ok b4) w4 l4 ->
  provision self false w =
  mkRun (Ok (count_true [b1; b2; b3; b4], 4)) w4 (l1 ++ l2 ++ l3 ++ l4).
Proof.
  intros E1 E2 E3 E4. unfold provision. cbv zeta.
  rewrite (bind_ok _ _ _ _ _ _ E1), (bind_ok _ _ _ _ _ _ E2),
    (bind_ok _ _ _ _ _ _ E3), (bind_ok _ _ _ _ _ _ E4).
  steps. destruct b1, b2, b3, b4; reflexivity.
Qed.

(** With the optional tool, doxygen is evaluated after the four and the
    total is 5. *)
Lemma provision_optional (self : ToolInstaller) (w w1 w2 w3 w4 w5 : World)
      (b1 b2 b3 b4 b5 : bool) (l1 l2 l3 l4 l5 : list event) :
  install_cmake self w = mkRun (Ok b1) w1 l1 ->
  install_compiler self w1 = mkRun (Ok b2) w2 l2 ->
  install_git self w2 = mkRun (Ok b3) w3 l3 ->
  install_coverage_tools self w3 = mkRun (Ok b4) w4 l4 ->
  install_doxygen self w4 = mkRun (Ok b5) w5 l5 ->
  provision self true w =
  mkRun (Ok (count_true [b1; b2; b3; b4; b5], 5)) w5
        (l1 ++ l2 ++ l3 ++ l4 ++ optional_banner ++ l5).
Proof.
  intros E1 E2 E3 E4 E5. unfold provision. cbv zeta.
  rewrite (bind_ok _ _ _ _ _ _ E1), (bind_ok _ _ _ _ _ _ E2),
    (bind_ok _ _ _ _ _ _ E3), (bind_ok _ _ _ _ _ _ E4).
  rewrite !bind_print, (bind_ok _ _ _ _ _ _ E5).
  steps. unfold optional_banner. destruct b1, b2, b3, b4, b5; reflexivity.
Qed.

Lemma run_all_cons (tool : M bool) (rest : list (M bool)) (w : World) :
  run_all (tool :: rest) w =
  match res (tool w) with
  | Ok b =>
      let r := run_all rest (final (tool w)) in
      mkRun (match res r with Ok bs => Ok (b :: bs) | Raise e => Raise e end)
            (final r) (log (tool w) ++ log r)
  | Raise e => mkRun (Raise e) (final (tool w)) (log (tool w))
  end.
Proof.
  cbn [run_all]. unfold bind at 1.
  destruct (res (tool w)); [|reflexivity].
  rewrite bind_ret_map. reflexivity.
Qed.

Ltac next_tool t w :=
  rewrite run_all_cons;
  let E := fresh "E" in
  destruct (t w) as [[?b|?e] ?w ?l] eqn:E;
  [ rewrite (bind_ok _ _ _ _ _ _ E) | rewrite (bind_raise _ _ _ _ _ _ E) ];
  cbn [res final log]; rewrite ?res_after; try reflexivity.

(** The counters of [provision] are the number of successes and the number
    of tools of the sequential run of the attempted tools; an exception
    raised by a tool ends both in the same way. *)
Lemma provision_counts (self : ToolInstaller) (install_optional : bool) (w : World) :
  res (provision self install_optional w) =
  match res (run_all (attempted self install_optional) w) with
  | Ok bs => Ok (count_true bs, length bs)
  | Raise e => Raise e
  end.
Proof.
  unfold provision, attempted, required_tools. cbv zeta. cbn [app].
  next_tool (install_cmake self) w.
  next_tool (install_compiler self) w0.
  next_tool (install_git self) w1.
  next_tool (install_coverage_tools self) w2.
  destruct install_optional.
  - rewrite !bind_print, !res_after.
    next_tool (install_doxygen self) w3.
    destruct b, b0, b1, b2, b3; reflexivity.
  - destruct b, b0, b1, b2; reflexivity.
Qed.

Lemma benign_provision (self : ToolInstaller) (install_optional : bool) :
  benign (provision self install_optional).
Proof.
  unfold provision. cbv zeta.
  walk ltac:(first [ apply benign_install_cmake | apply benign_install_compiler
                   | apply benign_install_git | apply benign_install_coverage_tools
                   | apply benign_install_doxygen | benign_leaf ]).
Qed.

Lemma run_all_length (tools : list (M bool)) (w : World) (bs : list bool) :
  res (run_all tools w) = Ok bs -> length bs = length tools.
Proof.
  revert w bs. induction tools as [|tool rest IH]; intros w bs.
  - intros [= <-]. reflexivity.
  - rewrite run_all_cons. destruct (res (tool w)); [|discriminate].
    cbn [res]. destruct (res (run_all rest (final (tool w)))) eqn:E; [|discriminate].
    intros [= <-]. cbn. now rewrite (IH _ _ E).
Qed.

Lemma run_all_snoc (tools : list (M bool)) (last : M bool) (w : World) :
  res (run_all (tools ++ [last]) w) =
  match res (run_all tools w) with
  | Ok bs =>
      match res (last (final (run_all tools w))) with
      | Ok b => Ok (bs ++ [b])%list
      | Raise e => Raise e
      end
  | Raise e => Raise e
  end.
Proof.
  revert w. induction tools as [|tool rest IH]; intros w.
  - cbn [app]. rewrite run_all_cons. cbn [run_all]. rewrite !ret_run.
    cbn [res final]. destruct (res (last w)); reflexivity.
  - cbn [app]. rewrite !run_all_cons.
    destruct (res (tool w)); [|reflexivity].
    cbn [res final]. rewrite IH.
    destruct (res (run_all rest (final (tool w)))); [|reflexivity].
    destruct (res (last _)); reflexivity.
Qed.

Lemma exit_status_main (install_optional : bool) (w : World) :
  exit_status (res (main install_optional w)) =
  match res (run_all (attempted (installer_of w) install_optional) w) with
  | Ok bs => if forallb id bs then 0%Z else 1%Z
  | Raise _ => 1%Z
  end.
Proof.
  rewrite main_run. cbv zeta.
  pose proof (benign_provision (installer_of w) install_optional w) as Ben.
  rewrite provision_counts in *.
  destruct (res (run_all (attempted (installer_of w) install_optional) w))
    as [bs|e].
  - cbn [res]. destruct (count_true bs =? length bs)%nat eqn:C.
    + apply Nat.eqb_eq, count_true_all in C. now rewrite C.
    + destruct (forallb id bs) eqn:F; [|reflexivity].
      apply count_true_all in F. apply Nat.eqb_neq in C. contradiction.
  - cbn [res]. destruct (Ben e eq_refl) as [-> | ->]; reflexivity.
Qed.

(** C2.  The exit status of a run is 0 or 1, and it is 0 exactly when every
    attempted tool returned success; the attempted tools are the four
    required ones, and doxygen as a fifth with [--install-optional].  When
    the counting part returns, [total_tools] is that number, and the status
    is 0 exactly when [success_count], the number of successes, equals it.
    With the four required tools succeeding and doxygen failing, the status
    is 1 with the flag and 0 without. *)
Theorem exit_status_counts_successes (install_optional : bool) (w : World) :
  (exit_status (res (main install_optional w)) = 0%Z \/
   exit_status (res (main install_optional w)) = 1%Z) /\
  length (attempted (installer_of w) install_optional) =
    (if install_optional then 5 else 4) /\
  (exit_status (res (main install_optional w)) = 0%Z <->
   exists bs : list bool,
     res (run_all (attempted (installer_of w) install_optional) w) = Ok bs /\
     forallb id bs = true) /\
  match res (provision (installer_of w) install_optional w) with
  | Ok (success_count, total_tools) =>
      total_tools = (if install_optional then 5 else 4) /\
      (exists bs : list bool,
         res (run_all (attempted (installer_of w) install_optional) w) = Ok bs /\
         success_count = count_true bs /\ total_tools = length bs) /\
      success_count <= total_tools /\
      (exit_status (res (main install_optional w)) = 0%Z <->
       success_count = total_tools)
  | Raise _ => exit_status (res (main install_optional w)) = 1%Z
  end /\
  (res (run_all (required_tools (installer_of w)) w) = Ok [true; true; true; true] ->
   res (install_doxygen (installer_of w)
          (final (run_all (required_tools (installer_of w)) w))) = Ok false ->
   exit_status (res (main true w)) = 1%Z /\
   exit_status (res (main false w)) = 0%Z).
Proof.
  split; [|split; [|split; [|split]]].
  - rewrite exit_status_main.
    destruct (res (run_all _ w)) as [bs|e]; [destruct (forallb id bs)|]; auto.
  - destruct install_optional; reflexivity.
  - rewrite exit_status_main.
    destruct (res (run_all _ w)) as [bs|e].
    + destruct (forallb id bs) eqn:F.
      * split; [intros _; now exists bs | reflexivity].
      * split; [discriminate | intros (bs' & [= <-] & F'); congruence].
    + split; [discriminate | intros (bs' & [=] & _)].
  - rewrite exit_status_main, provision_counts.
    destruct (res (run_all _ w)) as [bs|e] eqn:E; [|reflexivity].
    pose proof (run_all_length _ _ _ E) as L.
    assert (T : length bs = if install_optional then 5 else 4)
      by (rewrite L; destruct install_optional; reflexivity).
    split; [exact T|]. split; [now exists bs|]. split; [apply count_true_le|].
    rewrite count_true_all. destruct (forallb id bs); split; congruence.
  - intros E4 E5. rewrite !exit_status_main. unfold attempted.
    rewrite run_all_snoc, app_nil_r, E4, E5. split; reflexivity.
Qed.


End Run.

(** ** Concrete machines *)

Lemma machine_launches : launches launchable.
Proof.
  intros m cmd [G1 G2]. unfold launchable. cbn [shell machine_host].
  unfold machine_shell. rewrite G1, G2. cbn [mem existsb].
  destruct (mem cmd (failing m)); do 2 eexists; (split; [reflexivity|]);
    split; cbn [unlaunchable garbled]; first [assumption | reflexivity].
Defined.

(** C1, counterexample: cmake is on the path of the workstation and has a
    version command configured, yet checking it runs no command at all, in
    particular not [cmake --version]. *)
Lemma version_command_expected_but_not_run :
  which workstation "cmake" = true /\
  ~ In (EvShell "cmake --version") (log (install_cmake apt_installer workstation)) /\
  shell_cmds (log (install_cmake apt_installer workstation)) = [].
Proof.
  split; [reflexivity|]. split; [|reflexivity].
  vm_compute. intros [K|[K|[]]]; discriminate K.
Qed.

Lemma version_command_not_run_witness :
  check_tool "git" (Some "git --version") None workstation =
    mkRun (Ok (true, "Installed")) workstation [EvWhich "git"] /\
  install_cmake apt_installer workstation =
    mkRun (Ok true) workstation [EvWhich "cmake"; EvPrint "✅ CMake: Installed"] /\
  install_git apt_installer workstation =
    mkRun (Ok true) workstation [EvWhich "git"; EvPrint "✅ Git: Installed"].
Proof.
  destruct (version_command_not_run apt_installer workstation) as (A & B & C & _).
  split; [apply A; reflexivity|]. split; [apply B | apply C]; reflexivity.
Defined.

Lemma package_manager_priority_witness :
  res (get_package_manager (detector_of workstation) workstation) = Ok (Some "apt").
Proof.
  apply (package_manager_priority (detector_of workstation) workstation);
    reflexivity.
Defined.

(** C5, counterexample: off Windows with no compiler on the path and no
    package manager, no install command is dispatched at all; the answer is
    failure without any command having decided it. *)
Lemma compiler_absent_but_nothing_dispatched :
  is_windows (detector bare_installer) = false /\
  forallb (fun c => negb (which alpine c)) (compilers bare_installer) = true /\
  shell_cmds (log (install_compiler bare_installer alpine)) = [] /\
  res (install_compiler bare_installer alpine) = Ok false.
Proof. repeat split; reflexivity. Qed.

Lemma compiler_check_witness :
  shell_cmds (log (install_compiler apt_installer debian)) = [] /\
  install_compiler windows_installer windows_bare =
    mkRun (Ok true) windows_bare
          (map EvWhich ["g++"; "clang++"; "cl"] ++ windows_compiler_notice) /\
  shell_cmds (log (install_compiler apt_installer alpine)) =
    ["sudo apt install -y build-essential"] /\
  res (install_compiler apt_installer alpine) = Ok true /\
  res (install_compiler bare_installer alpine) = Ok false.
Proof.
  assert (Absent : forall (m : World) (l : list string),
             on_path m = [] -> forall c, In c l -> which m c = false)
    by (intros m l E c _; cbn [which machine_host]; rewrite E; reflexivity).
  split; [|split; [|split; [|split]]].
  - destruct (compiler_check apt_installer debian) as (_ & P & _).
    apply (P "g++"); [left; reflexivity | reflexivity].
  - destruct (compiler_check windows_installer windows_bare) as (_ & _ & W & _).
    apply W; [apply Absent; reflexivity | reflexivity].
  - destruct (compiler_check apt_installer alpine) as (_ & _ & _ & Mp & _).
    apply (Mp (Absent alpine _ eq_refl) eq_refl _ "Installing GCC via apt").
    reflexivity.
  - destruct (compiler_check apt_installer alpine) as (_ & _ & _ & Mp & _).
    apply (proj2 (Mp (Absent alpine _ eq_refl) eq_refl _ "Installing GCC via apt"
                     eq_refl)
                 (mkCompleted 0 "" "") alpine).
    reflexivity.
  - destruct (compiler_check bare_installer alpine) as (_ & _ & _ & _ & U).
    apply U; [apply Absent; reflexivity | reflexivity | reflexivity].
Defined.


Lemma present_tool_dispatches_nothing_witness :
  install_cmake apt_installer workstation =
    mkRun (Ok true) workstation [EvWhich "cmake"; EvPrint "✅ CMake: Installed"] /\
  shell_cmds (log (install_compiler apt_installer workstation)) = [] /\
  install_coverage_tools apt_installer workstation =
    mkRun (Ok true) workstation
      [EvWhich "gcovr"; EvWhich "lcov";
       EvPrint "✅ gcovr: Installed"; EvPrint "✅ lcov: Installed"].
Proof.
  destruct (present_tool_dispatches_nothing apt_installer workstation)
    as (A & _ & _ & B & _ & C & _).
  split; [apply A; reflexivity|]. split.
  - apply (B "g++"); [left; reflexivity | reflexivity].
  - apply C; reflexivity.
Defined.

(** C7, counterexample: on a Windows host no compiler is on the path and no
    install mapping exists for it, yet the compiler step reports success
    instead of failure. *)
Lemma windows_compiler_unmapped_yet_success :
  forallb (fun c => negb (which windows_bare c)) (compilers windows_installer) = true /\
  mapping compiler_table (pkg_mgr windows_installer) = None /\
  res (install_compiler windows_installer windows_bare) = Ok true /\
  res (install_compiler windows_installer windows_bare) <> Ok false.
Proof.
  split; [reflexivity|]. split; [reflexivity|]. split; [reflexivity|].
  vm_compute. discriminate.
Qed.

Lemma unmapped_tool_fails_without_command_witness :
  install_git bare_installer alpine =
    mkRun (Ok false) alpine
      [EvWhich "git";
       EvPrint "❌ No supported package manager found for Git installation"] /\
  install_coverage_tools windows_installer windows_bare =
    mkRun (Ok false) windows_bare
      [EvWhich "OpenCppCoverage";
       EvPrint "❌ Please install OpenCppCoverage manually from:";
       EvPrint "https://github.com/OpenCppCoverage/OpenCppCoverage/releases"] /\
  ToolInstaller_init (detector_of freebsd) freebsd =
    mkRun (Ok (mkInstaller (detector_of freebsd) None)) freebsd [].
Proof.
  split; [|split].
  - destruct (unmapped_tool_fails_without_command bare_installer alpine)
      as (_ & _ & G & _).
    apply G; reflexivity.
  - destruct (unmapped_tool_fails_without_command windows_installer windows_bare)
      as (_ & _ & _ & O & _).
    apply O; reflexivity.
  - destruct (unmapped_tool_fails_without_command
                (mkInstaller (detector_of freebsd) None) freebsd)
      as (_ & _ & _ & _ & _ & _ & _ & U).
    apply U. reflexivity.
Defined.



Lemma non_windows_branches_witness :
  compilers (mkInstaller (detector_of freebsd) None) = ["g++"; "clang++"] /\
  probes (log (install_coverage_tools (mkInstaller (detector_of freebsd) None)
                 freebsd)) = ["gcovr"; "lcov"].
Proof.
  destruct (non_windows_branches freebsd freebsd (detector_of freebsd) None)
    as (_ & C & _ & _ & P & _).
  - reflexivity.
  - vm_compute. discriminate.
  - split; assumption.
Defined.

Lemma exit_status_counts_successes_witness :
  exit_status (res (main true workstation)) = 1%Z /\
  exit_status (res (main false workstation)) = 0%Z.
Proof.
  destruct (exit_status_counts_successes true workstation) as (_ & _ & _ & _ & D).
  apply D; reflexivity.
Defined.

(** A run on the debian machine: cmake is installed, the gcovr package is
    not found, lcov is installed all the same, and the run ends with status
    1 after a summary of 3 successes out of 4. *)
Example debian_run :
  exit_status (res (main false debian)) = 1%Z /\
  shell_cmds (log (main false debian)) =
    ["sudo apt update && sudo apt install -y cmake";
     "sudo apt install -y gcovr"; "sudo apt install -y lcov"] /\
  In (EvPrint "✅ Setup complete: 3/4 tools installed successfully")
     (log (main false debian)).
Proof.
  split; [reflexivity|]. split; [reflexivity|].
  vm_compute. repeat (first [left; reflexivity | right]).
Qed.

(** With a minimum version the version command would run, and a failure to
    launch it would turn a present tool into an absent one. *)
Example versioned_check_on_launch_failure :
  check_tool "git" (Some "git --version") (Some "2.0")
             (mkMachine "Linux" ["git"] [] ["git --version"] [] []) =
  mkRun (Ok (false, "Version check failed"))
        (mkMachine "Linux" ["git"] [] ["git --version"] [] [])
        [EvWhich "git"; EvShell "git --version"].
Proof. reflexivity. Qed.

(** A command that cannot be launched is not a failure the script handles:
    the exception leaves [run_command] and ends the run. *)
Example unlaunchable_command_ends_the_run :
  res (main false (mkMachine "Linux" ["apt"] []
                     ["sudo apt update && sudo apt install -y cmake"] [] [])) =
  Raise OSError.
Proof. reflexivity. Qed.

(** ** Further properties of the script *)

Section Contracts.

Context `{Host}.

(** X1.  [run_command] dispatches exactly the command it is given and leaves
    the machine as the command left it.  It answers [True] exactly when the
    command hands back exit status 0 and [False] exactly when it hands back
    another status, in which case the captured error stream is printed.
    The exceptions it lets through are exactly those [subprocess.run] raises
    for a reason other than the exit status (the command cannot be launched,
    its output cannot be decoded): the [CalledProcessError] of a non-zero
    status never escapes. *)
Theorem run_command_contract (cmd description : string) (w : World) :
  shell_cmds (log (run_command cmd description w)) = [cmd] /\
  final (run_command cmd description w) = snd (shell w cmd) /\
  (res (run_command cmd description w) = Ok true <->
   exists p : CompletedProcess,
     fst (shell w cmd) = Exited p /\ returncode p = 0%Z) /\
  (res (run_command cmd description w) = Ok false <->
   exists p : CompletedProcess,
     fst (shell w cmd) = Exited p /\ returncode p <> 0%Z /\
     In (EvPrint ("Error: " ++ stderr p)) (log (run_command cmd description w))) /\
  (forall e : exn,
     res (run_command cmd description w) = Raise e <->
     res (subprocess_run cmd false w) = Raise e) /\
  (forall (code : Z) (err : string),
     res (run_command cmd description w) <> Raise (CalledProcessError code err)).
Proof.
  split; [apply run_command_cmds|].
  unfold subprocess_run.
  destruct (shell w cmd) as [[p| |] w'] eqn:Hs; cbn [fst snd andb res].
  - rewrite (run_command_exited _ _ _ _ _ Hs). cbn [res final log].
    unfold run_command_log.
    split; [reflexivity|].
    destruct (returncode p =? 0)%Z eqn:E; [apply Z.eqb_eq in E | apply Z.eqb_neq in E].
    + split; [|split; [|split]].
      * split; [intros _; now exists p | reflexivity].
      * split; [discriminate | intros (p' & [= <-] & N & _); contradiction].
      * intros e. split; discriminate.
      * intros code err. discriminate.
    + split; [|split; [|split]].
      * split; [discriminate | intros (p' & [= <-] & Z0); contradiction].
      * split; [|reflexivity]. intros _. exists p.
        split; [reflexivity|]. split; [exact E|]. cbn. auto.
      * intros e. split; discriminate.
      * intros code err. discriminate.
  - rewrite (run_command_not_launched _ _ _ _ Hs). cbn [res final log].
    split; [reflexivity|]. split; [|split; [|split]].
    + split; [discriminate | intros (p & [=] & _)].
    + split; [discriminate | intros (p & [=] & _)].
    + intros e. split; intros [= <-]; reflexivity.
    + intros code err. discriminate.
  - rewrite (run_command_undecodable _ _ _ _ Hs). cbn [res final log].
    split; [reflexivity|]. split; [|split; [|split]].
    + split; [discriminate | intros (p & [=] & _)].
    + split; [discriminate | intros (p & [=] & _)].
    + intros e. split; intros [= <-]; reflexivity.
    + intros code err. discriminate.
Qed.

(** X2.  [check_tool] never raises, whatever its arguments and whatever the
    version command does.  It answers "installed" only for a tool found on
    the path; it dispatches the version command only when the tool is found
    and both a version command and a minimum version are given, and then
    the answer is "installed" when the command hands back an exit status,
    whichever it is, and "version check failed" when [subprocess.run]
    raises instead (the command cannot be launched, its output cannot be
    decoded). *)
Theorem check_tool_contract (tool : string) (version_cmd min_version : option string)
        (w : World) :
  exists (installed : bool) (status : string),
    res (check_tool tool version_cmd min_version w) = Ok (installed, status) /\
    (installed = true -> which w tool = true) /\
    (which w tool && truthy version_cmd && truthy min_version = false ->
     check_tool tool version_cmd min_version w =
     mkRun (Ok (if which w tool then (true, "Installed")
                else (false, "Not installed"))) w [EvWhich tool]) /\
    (which w tool && truthy version_cmd && truthy min_version = true ->
     exists cmd : string,
       version_cmd = Some cmd /\
       shell_cmds (log (check_tool tool version_cmd min_version w)) = [cmd] /\
       final (check_tool tool version_cmd min_version w) = snd (shell w cmd) /\
       (installed, status) =
         match fst (shell w cmd) with
         | Exited _ => (true, "Installed")
         | NotLaunched | Undecodable => (false, "Version check failed")
         end).
Proof.
  unfold check_tool. rewrite bind_which.
  destruct (which w tool) eqn:Hw; cbn [negb andb].
  - destruct (truthy version_cmd && truthy min_version) eqn:T.
    + destruct version_cmd as [cmd|]; [|discriminate T].
      unfold try_except, bind, subprocess_run, ret. cbn [andb].
      destruct (shell w cmd) as [[p| |] w'] eqn:Hs; cbn [res final log fst snd app].
      * exists true, "Installed". split; [reflexivity|]. split; [trivial|].
        split; [discriminate|]. intros _. exists cmd. rewrite Hs. repeat split.
      * exists false, "Version check failed". split; [reflexivity|].
        split; [discriminate|]. split; [discriminate|].
        intros _. exists cmd. rewrite Hs. repeat split.
      * exists false, "Version check failed". split; [reflexivity|].
        split; [discriminate|]. split; [discriminate|].
        intros _. exists cmd. rewrite Hs. repeat split.
    + exists true, "Installed". rewrite ret_run, after_mkRun. cbn [res app].
      split; [reflexivity|]. split; [trivial|]. split; [reflexivity|discriminate].
  - exists false, "Not installed". rewrite ret_run, after_mkRun. cbn [res app].
    split; [reflexivity|]. split; [discriminate|]. split; [reflexivity|discriminate].
Qed.

End Contracts.

(** ** What a run dispatches and when it stops *)

Section Frames.

Context `{Host}.

Lemma framed_ret {A : Type} (a : A) : framed (ret a).
Proof. intros w _. reflexivity. Qed.

Lemma framed_raise {A : Type} (e : exn) : framed (@raise _ A e).
Proof. intros w _. reflexivity. Qed.

Lemma framed_print (line : string) : framed (print line).
Proof. intros w _. reflexivity. Qed.

Lemma framed_which (name : string) : framed (shutil_which name).
Proof. intros w _. reflexivity. Qed.

Lemma framed_bind {A B : Type} (m : M A) (f : A -> M B) :
  framed m -> (forall a, framed (f a)) -> framed (bind m f).
Proof.
  intros Hm Hf w. unfold bind. specialize (Hm w).
  destruct (m w) as [[a|e] w1 l1]; cbn [res final log] in *; [|exact Hm].
  rewrite shell_cmds_app. intros E. apply app_eq_nil in E. destruct E as [E1 E2].
  rewrite (Hf a w1 E2). now apply Hm.
Qed.

Lemma framed_run_command (cmd description : string) :
  framed (run_command cmd description).
Proof. intros w. rewrite run_command_cmds. discriminate. Qed.

Lemma framed_check_tool (tool : string) (cmd : option string) :
  framed (check_tool tool cmd None).
Proof. intros w _. now rewrite check_tool_unversioned. Qed.

Lemma framed_first_compiler (l : list string) : framed (first_compiler l).
Proof. intros w _. now rewrite first_compiler_scan. Qed.

Lemma dispatches_ret (P : string -> Prop) {A : Type} (a : A) : dispatches P (ret a).
Proof. intros w cmd []. Qed.

Lemma dispatches_print (P : string -> Prop) (line : string) :
  dispatches P (print line).
Proof. intros w cmd []. Qed.

Lemma dispatches_which (P : string -> Prop) (name : string) :
  dispatches P (shutil_which name).
Proof. intros w cmd []. Qed.

Lemma dispatches_bind (P : string -> Prop) {A B : Type} (m : M A) (f : A -> M B) :
  dispatches P m -> (forall a, dispatches P (f a)) -> dispatches P (bind m f).
Proof.
  intros Hm Hf w cmd. unfold bind. specialize (Hm w cmd).
  destruct (m w) as [[a|e] w1 l1]; cbn [res final log] in *; [|exact Hm].
  rewrite shell_cmds_app, in_app_iff. intros [K|K]; [now apply Hm|].
  exact (Hf a w1 cmd K).
Qed.

Lemma dispatches_run_command (P : string -> Prop) (cmd description : string) :
  P cmd -> dispatches P (run_command cmd description).
Proof.
  intros Pc w c. rewrite run_command_cmds. intros [<-|[]]. exact Pc.
Qed.

Lemma dispatches_check_tool (P : string -> Prop) (tool : string) (cmd : option string) :
  dispatches P (check_tool tool cmd None).
Proof. intros w c. rewrite check_tool_unversioned. intros []. Qed.

Lemma dispatches_first_compiler (P : string -> Prop) (l : list string) :
  dispatches P (first_compiler l).
Proof.
  intros w c. rewrite first_compiler_scan. cbn [log].
  rewrite shell_cmds_probes. intros [].
Qed.

Lemma stops_ret {A : Type} (a : A) : stops_at_command (ret a).
Proof. intros w e [=]. Qed.

Lemma stops_print (line : string) : stops_at_command (print line).
Proof. intros w e [=]. Qed.

Lemma stops_which (name : string) : stops_at_command (shutil_which name).
Proof. intros w e [=]. Qed.

Lemma stops_bind {A B : Type} (m : M A) (f : A -> M B) :
  stops_at_command m -> (forall a, stops_at_command (f a)) ->
  stops_at_command (bind m f).
Proof.
  intros Hm Hf w e. unfold bind. specialize (Hm w).
  destruct (m w) as [[a|e1] w1 l1]; cbn [res final log] in *.
  - intros E N. destruct (Hf a w1 e E N) as (before & cmd & K).
    exists (l1 ++ before)%list, cmd. now rewrite K, app_assoc.
  - intros [= ->] N. now apply (Hm e).
Qed.

Lemma stops_run_command (cmd description : string) :
  stops_at_command (run_command cmd description).
Proof.
  intros w e. destruct (shell w cmd) as [[p| |] w'] eqn:Hs.
  - rewrite (run_command_exited _ _ _ _ _ Hs). intros [=].
  - rewrite (run_command_not_launched _ _ _ _ Hs). intros _ _.
    now exists [EvPrint ("📦 " ++ description)], cmd.
  - rewrite (run_command_undecodable _ _ _ _ Hs). intros _ _.
    now exists [EvPrint ("📦 " ++ description)], cmd.
Qed.

Lemma stops_check_tool (tool : string) (cmd : option string) :
  stops_at_command (check_tool tool cmd None).
Proof. intros w e. rewrite check_tool_unversioned. intros [=]. Qed.

Lemma stops_first_compiler (l : list string) : stops_at_command (first_compiler l).
Proof. intros w e. rewrite first_compiler_scan. intros [=]. Qed.

End Frames.

Ltac framed_leaf :=
  idtac;
  lazymatch goal with
  | |- _ (bind _ _) => apply framed_bind; [|intro]
  | |- _ (ret _) => apply framed_ret
  | |- _ (print _) => apply framed_print
  | |- _ (shutil_which _) => apply framed_which
  | |- _ (run_command _ _) => apply framed_run_command
  | |- _ (check_tool _ _ None) => apply framed_check_tool
  | |- _ (first_compiler _) => apply framed_first_compiler
  end.

Ltac stops_leaf :=
  idtac;
  lazymatch goal with
  | |- _ (bind _ _) => apply stops_bind; [|intro]
  | |- _ (ret _) => apply stops_ret
  | |- _ (print _) => apply stops_print
  | |- _ (shutil_which _) => apply stops_which
  | |- _ (run_command _ _) => apply stops_run_command
  | |- _ (check_tool _ _ None) => apply stops_check_tool
  | |- _ (first_compiler _) => apply stops_first_compiler
  end.

(** Closes [mapped pm cmd] with the table entry the tests on [pm] select. *)
Ltac in_table t :=
  exists t; eexists; split;
  [ unfold install_tables; cbn [In]; repeat (first [left; reflexivity | right])
  | unfold t; cbn [mapping];
    repeat match goal with
           | E : pm_is _ _ = _ |- _ => rewrite E; clear E
           end;
    reflexivity ].

Ltac mapped_leaf :=
  idtac;
  lazymatch goal with
  | |- _ (if pm_is ?p ?n then _ else _) => destruct (pm_is p n) eqn:?
  | |- _ (bind _ _) => apply dispatches_bind; [|intro]
  | |- _ (ret _) => apply dispatches_ret
  | |- _ (print _) => apply dispatches_print
  | |- _ (shutil_which _) => apply dispatches_which
  | |- _ (check_tool _ _ None) => apply dispatches_check_tool
  | |- _ (first_compiler _) => apply dispatches_first_compiler
  | |- _ (run_command _ _) =>
      apply dispatches_run_command; unfold mapped;
      first [ in_table cmake_table | in_table compiler_table
            | in_table git_table | in_table opencppcoverage_table
            | in_table gcovr_table | in_table lcov_table
            | in_table doxygen_table ]
  end.

Section Dispatch.

Context `{Host}.

Lemma framed_install_cmake (self : ToolInstaller) : framed (install_cmake self).
Proof. unfold install_cmake. walk framed_leaf. Qed.

Lemma framed_install_compiler (self : ToolInstaller) : framed (install_compiler self).
Proof. unfold install_compiler. walk framed_leaf. Qed.

Lemma framed_install_git (self : ToolInstaller) : framed (install_git self).
Proof. unfold install_git. walk framed_leaf. Qed.

Lemma framed_install_coverage_tools (self : ToolInstaller) :
  framed (install_coverage_tools self).
Proof. unfold install_coverage_tools. cbv zeta. walk framed_leaf. Qed.

Lemma framed_install_doxygen (self : ToolInstaller) : framed (install_doxygen self).
Proof. unfold install_doxygen. walk framed_leaf. Qed.

Lemma stops_install_cmake (self : ToolInstaller) :
  stops_at_command (install_cmake self).
Proof. unfold install_cmake. walk stops_leaf. Qed.

Lemma stops_install_compiler (self : ToolInstaller) :
  stops_at_command (install_compiler self).
Proof. unfold install_compiler. walk stops_leaf. Qed.

Lemma stops_install_git (self : ToolInstaller) :
  stops_at_command (install_git self).
Proof. unfold install_git. walk stops_leaf. Qed.

Lemma stops_install_coverage_tools (self : ToolInstaller) :
  stops_at_command (install_coverage_tools self).
Proof. unfold install_coverage_tools. cbv zeta. walk stops_leaf. Qed.

Lemma stops_install_doxygen (self : ToolInstaller) :
  stops_at_command (install_doxygen self).
Proof. unfold install_doxygen. walk stops_leaf. Qed.

Lemma mapped_install_cmake (self : ToolInstaller) :
  dispatches (mapped (pkg_mgr self)) (install_cmake self).
Proof. unfold install_cmake. walk mapped_leaf. Qed.

Lemma mapped_install_compiler (self : ToolInstaller) :
  dispatches (mapped (pkg_mgr self)) (install_compiler self).
Proof. unfold install_compiler. walk mapped_leaf. Qed.

Lemma mapped_install_git (self : ToolInstaller) :
  dispatches (mapped (pkg_mgr self)) (install_git self).
Proof. unfold install_git. walk mapped_leaf. Qed.

Lemma mapped_install_coverage_tools (self : ToolInstaller) :
  dispatches (mapped (pkg_mgr self)) (install_coverage_tools self).
Proof. unfold install_coverage_tools. cbv zeta. walk mapped_leaf. Qed.

Lemma mapped_install_doxygen (self : ToolInstaller) :
  dispatches (mapped (pkg_mgr self)) (install_doxygen self).
Proof. unfold install_doxygen. walk mapped_leaf. Qed.

End Dispatch.

Ltac tool_leaf leaf cmake compiler git coverage doxygen :=
  idtac;
  lazymatch goal with
  | |- _ (install_cmake _) => apply cmake
  | |- _ (install_compiler _) => apply compiler
  | |- _ (install_git _) => apply git
  | |- _ (install_coverage_tools _) => apply coverage
  | |- _ (install_doxygen _) => apply doxygen
  | |- _ => leaf
  end.

Section WholeRun.

Context `{Host}.

Lemma framed_provision (self : ToolInstaller) (install_optional : bool) :
  framed (provision self install_optional).
Proof.
  unfold provision. cbv zeta.
  walk ltac:(tool_leaf framed_leaf framed_install_cmake framed_install_compiler
               framed_install_git framed_install_coverage_tools
               framed_install_doxygen).
Qed.

Lemma stops_provision (self : ToolInstaller) (install_optional : bool) :
  stops_at_command (provision self install_optional).
Proof.
  unfold provision. cbv zeta.
  walk ltac:(tool_leaf stops_leaf stops_install_cmake stops_install_compiler
               stops_install_git stops_install_coverage_tools
               stops_install_doxygen).
Qed.

Lemma mapped_provision (self : ToolInstaller) (install_optional : bool) :
  dispatches (mapped (pkg_mgr self)) (provision self install_optional).
Proof.
  unfold provision. cbv zeta.
  walk ltac:(tool_leaf mapped_leaf mapped_install_cmake mapped_install_compiler
               mapped_install_git mapped_install_coverage_tools
               mapped_install_doxygen).
Qed.

Lemma header_cmds (w : World) : shell_cmds (header w) = [].
Proof.
  unfold header, manager_scan.
  rewrite !shell_cmds_app, !shell_cmds_probes.
  destruct (truthy (manager_of w));
    rewrite ?shell_cmds_app, ?shell_cmds_probes; reflexivity.
Qed.

Lemma footer_cmds (success_count total_tools : nat) :
  shell_cmds (footer success_count total_tools) = [].
Proof.
  unfold footer. rewrite shell_cmds_app.
  destruct (success_count =? total_tools)%nat; reflexivity.
Qed.

(** The commands and the final machine of [main] are those of its counting
    part. *)
Lemma main_parts (install_optional : bool) (w : World) :
  shell_cmds (log (main install_optional w)) =
    shell_cmds (log (provision (installer_of w) install_optional w)) /\
  final (main install_optional w) =
    final (provision (installer_of w) install_optional w).
Proof.
  rewrite main_run. cbv zeta.
  destruct (res (provision (installer_of w) install_optional w)) as [[sc tt']|e];
    cbn [log final]; rewrite !shell_cmds_app, header_cmds, ?footer_cmds, ?app_nil_r;
    split; reflexivity.
Qed.

Lemma pm_is_true (pm : option string) (name : string) :
  pm_is pm name = true -> pm = Some name.
Proof.
  destruct pm as [m|]; [|discriminate]. cbn. intros E.
  apply String.eqb_eq in E. now subst.
Qed.

(** Only seven managers have an entry in some table. *)
Lemma mapped_manager (pm : option string) (cmd : string) :
  mapped pm cmd ->
  exists m : string,
    pm = Some m /\
    In m ["winget"; "choco"; "apt"; "dnf"; "yum"; "pacman"; "brew"].
Proof.
  intros (table & d & Hin & Hm). unfold install_tables in Hin. cbn [In] in Hin.
  repeat (destruct Hin as [<-|Hin]; [cbn [mapping cmake_table compiler_table
            git_table opencppcoverage_table gcovr_table lcov_table doxygen_table]
            in Hm|]); [..|contradiction];
    repeat match type of Hm with
           | context [pm_is pm ?n] =>
               let E := fresh "E" in
               destruct (pm_is pm n) eqn:E;
               [ apply pm_is_true in E; exists n; split; [exact E|];
                 cbn [In]; repeat (first [left; reflexivity | right])
               | ]
           end; discriminate Hm.
Qed.

Lemma candidate_truthy (w : World) (m : string) :
  manager_of w = Some m -> truthy (manager_of w) = true.
Proof.
  intros E. rewrite E. unfold manager_of in E.
  apply find_some in E. destruct E as [Hin _].
  destruct (family (detector_of w)); cbn [candidates In] in Hin;
    repeat (destruct Hin as [<-|Hin]; [reflexivity|]); contradiction.
Qed.

(** X3.  Every command of a run is the one some install table maps the
    detected package manager to; that manager is one of the seven with table
    entries, it was found on the path, and it is the one the header
    announces. *)
Theorem commands_come_from_detected_manager (install_optional : bool) (w : World) :
  (forall cmd : string,
     In cmd (shell_cmds (log (main install_optional w))) ->
     mapped (manager_of w) cmd /\
     exists m : string,
       manager_of w = Some m /\ which w m = true /\
       In m ["winget"; "choco"; "apt"; "dnf"; "yum"; "pacman"; "brew"]) /\
  In (EvPrint match manager_of w with
              | Some m => "Package Manager: " ++ m
              | None => "Package Manager: None detected"
              end)
     (log (main install_optional w)).
Proof.
  split.
  - intros cmd Hin. rewrite (proj1 (main_parts install_optional w)) in Hin.
    pose proof (mapped_provision (installer_of w) install_optional w cmd Hin) as Mp.
    cbn [pkg_mgr installer_of] in Mp. split; [exact Mp|].
    destruct (mapped_manager _ _ Mp) as (m & E & Seven).
    exists m. split; [exact E|]. split; [|exact Seven].
    unfold manager_of in E. apply find_some in E. exact (proj2 E).
  - rewrite main_run. cbv zeta.
    assert (K : In (EvPrint match manager_of w with
                            | Some m => "Package Manager: " ++ m
                            | None => "Package Manager: None detected"
                            end) (header w)).
    { unfold header. apply in_or_app. right. apply in_or_app. right.
      apply in_or_app. left.
      destruct (manager_of w) as [m|] eqn:E.
      - pose proof (candidate_truthy w m E) as T. rewrite E in T. rewrite T.
        apply in_or_app. right. left. reflexivity.
      - cbn [truthy]. left. reflexivity. }
    destruct (res (provision (installer_of w) install_optional w)) as [[sc tt']|e];
      cbn [log]; apply in_or_app; left; exact K.
Qed.

(** X4.  With no package manager detected, or with scoop, which no install
    method knows, a run dispatches no command at all and leaves the machine
    as it found it. *)
Theorem no_supported_manager_no_command (install_optional : bool) (w : World) :
  manager_of w = None \/ manager_of w = Some "scoop" ->
  shell_cmds (log (main install_optional w)) = [] /\
  final (main install_optional w) = w.
Proof.
  intros Hpm.
  assert (E : shell_cmds (log (provision (installer_of w) install_optional w)) = []).
  { destruct (shell_cmds (log (provision (installer_of w) install_optional w)))
      as [|cmd rest] eqn:E; [reflexivity|exfalso].
    assert (Hin : In cmd (shell_cmds
                            (log (provision (installer_of w) install_optional w))))
      by (rewrite E; left; reflexivity).
    pose proof (mapped_provision (installer_of w) install_optional w cmd Hin) as Mp.
    cbn [pkg_mgr installer_of] in Mp.
    destruct (mapped_manager _ _ Mp) as (m & Em & Seven).
    destruct Hpm as [N|S]; rewrite Em in *; [discriminate|].
    injection S as ->. cbn [In] in Seven.
    repeat (destruct Seven as [Seven|Seven]; [discriminate Seven|]).
    exact Seven. }
  destruct (main_parts install_optional w) as [C F]. rewrite C, F.
  split; [exact E|]. now apply framed_provision.
Qed.

(** X6.  A run ends in one of two ways.  Either [subprocess.run] raised for
    a reason other than the exit status while an install command was being
    run, the exception went through [run_command] and [main], and
    dispatching that command is the last thing the run did: no further tool
    is evaluated and no summary is printed.  Or the run ends with the
    footer, whose second line is the summary of the two counters, and it
    returns when they are equal and exits with status 1 when they are
    not. *)
Theorem run_ends_in_two_ways (install_optional : bool) (w : World) :
  (exists (e : exn) (before : list event) (cmd : string),
     res (main install_optional w) = Raise e /\
     (forall code : Z, e <> SystemExit code) /\
     (forall (code : Z) (err : string), e <> CalledProcessError code err) /\
     log (main install_optional w) = (before ++ [EvShell cmd])%list) \/
  (exists (before : list event) (success_count total_tools : nat),
     log (main install_optional w) =
       (before ++ footer success_count total_tools)%list /\
     nth_error (footer success_count total_tools) 1 =
       Some (summary_line success_count total_tools) /\
     res (main install_optional w) =
       if (success_count =? total_tools)%nat then Ok tt
       else Raise (SystemExit 1)).
Proof.
  rewrite main_run. cbv zeta.
  pose proof (benign_provision (installer_of w) install_optional w) as Ben.
  pose proof (stops_provision (installer_of w) install_optional w) as St.
  destruct (res (provision (installer_of w) install_optional w)) as [[sc tt']|e].
  - right. exists (header w ++ log (provision (installer_of w) install_optional w))%list,
      sc, tt'. cbn [res log]. rewrite app_assoc. repeat split.
  - left.
    assert (N : (forall code : Z, e <> SystemExit code) /\
                (forall (code : Z) (err : string), e <> CalledProcessError code err))
      by (destruct (Ben e eq_refl) as [-> | ->]; split; discriminate).
    destruct (St e eq_refl (proj1 N)) as (before & cmd & K).
    exists e, (header w ++ before)%list, cmd. cbn [res log].
    split; [reflexivity|]. split; [exact (proj1 N)|]. split; [exact (proj2 N)|].
    now rewrite K, app_assoc.
Qed.

End WholeRun.

Section Outcomes.

Context `{Host}.

(** X7.  A method built on [check_tool] reports success exactly when its tool
    was found on the path or, the tool being absent, the detected manager
    has an install command for it and that command exited with status 0;
    the same holds for OpenCppCoverage on Windows. *)
Theorem success_means_found_or_installed (self : ToolInstaller) (w : World) :
  let installed (name : string) (table : install_table) : Prop :=
    which w name = true \/
    (which w name = false /\
     exists (cmd description : string) (p : CompletedProcess),
       mapping table (pkg_mgr self) = Some (cmd, description) /\
       fst (shell w cmd) = Exited p /\ returncode p = 0%Z) in
  (res (install_cmake self w) = Ok true <-> installed "cmake" cmake_table) /\
  (res (install_git self w) = Ok true <-> installed "git" git_table) /\
  (res (install_doxygen self w) = Ok true <-> installed "doxygen" doxygen_table) /\
  (is_windows (detector self) = true ->
   (res (install_coverage_tools self w) = Ok true <->
    installed "OpenCppCoverage" opencppcoverage_table)).
Proof.
  intros installed.
  assert (Run : forall (cmd d : string) (pre : list event),
             res (after pre (run_command cmd d w)) = Ok true <->
             exists p : CompletedProcess,
               fst (shell w cmd) = Exited p /\ returncode p = 0%Z).
  { intros cmd d pre. rewrite res_after.
    destruct (shell w cmd) as [[p| |] w'] eqn:Hs; cbn [fst].
    - rewrite (run_command_exited _ _ _ _ _ Hs). cbn [res]. split.
      + intros [= E]. apply Z.eqb_eq in E. now exists p.
      + intros (p' & [= <-] & E). now rewrite E.
    - rewrite (run_command_not_launched _ _ _ _ Hs). cbn [res].
      split; [discriminate | intros (p & [=] & _)].
    - rewrite (run_command_undecodable _ _ _ _ Hs). cbn [res].
      split; [discriminate | intros (p & [=] & _)]. }
  assert (Shape : forall (name : string) (table : install_table) (r : run bool)
                    (pre : list event) (manual : run bool),
             (which w name = true -> res r = Ok true) ->
             (which w name = false ->
              r = match mapping table (pkg_mgr self) with
                  | Some (cmd, d) => after pre (run_command cmd d w)
                  | None => manual
                  end) ->
             res manual = Ok false ->
             res r = Ok true <-> installed name table).
  { intros name table r pre manual Hp Ha Hm. unfold installed.
    destruct (which w name) eqn:Hw.
    - split; [now left | intros _; now apply Hp].
    - rewrite (Ha eq_refl).
      destruct (mapping table (pkg_mgr self)) as [[cmd d]|].
      + rewrite Run. split.
        * intros (p & Hs & E). right. split; [reflexivity|]. now exists cmd, d, p.
        * intros [[=]|(_ & cmd' & d' & p & [= <- <-] & Hs & E)]. now exists p.
      + rewrite Hm. split; [discriminate|].
        intros [[=]|(_ & cmd' & d' & p & [=] & _)]. }
  split; [|split; [|split]].
  - eapply Shape.
    + intros Hw. now rewrite (install_cmake_present _ _ Hw).
    + intros Hw. apply (install_cmake_absent _ _ Hw).
    + reflexivity.
  - eapply Shape.
    + intros Hw. now rewrite (install_git_present _ _ Hw).
    + intros Hw. apply (install_git_absent _ _ Hw).
    + reflexivity.
  - eapply Shape.
    + intros Hw. now rewrite (install_doxygen_present _ _ Hw).
    + intros Hw. apply (install_doxygen_absent _ _ Hw).
    + reflexivity.
  - intros Hwin. eapply Shape.
    + intros Hw. now rewrite (install_coverage_windows_present _ _ Hwin Hw).
    + intros Hw. apply (install_coverage_windows_absent _ _ Hwin Hw).
    + reflexivity.
Qed.

(** X8.  On Windows winget takes precedence over chocolatey, and only
    chocolatey has an install command for OpenCppCoverage: with winget on
    the path a missing OpenCppCoverage is never installed, whether or not
    chocolatey is there too; it is installed through chocolatey only when
    winget is absent. *)
Theorem winget_shadows_chocolatey (w : World) :
  family (detector_of w) = Windows ->
  which w "OpenCppCoverage" = false ->
  (which w "winget" = true ->
   install_coverage_tools (installer_of w) w =
   mkRun (Ok false) w
     [EvWhich "OpenCppCoverage";
      EvPrint "❌ Please install OpenCppCoverage manually from:";
      EvPrint "https://github.com/OpenCppCoverage/OpenCppCoverage/releases"]) /\
  (which w "winget" = false -> which w "choco" = true ->
   shell_cmds (log (install_coverage_tools (installer_of w) w)) =
     ["choco install opencppcoverage"]).
Proof.
  intros F Hw.
  assert (Hwin : is_windows (detector (installer_of w)) = true).
  { cbn [detector installer_of]. unfold family in F.
    destruct (is_windows (detector_of w)); [reflexivity|].
    destruct (is_linux (detector_of w)); [discriminate|].
    destruct (is_macos (detector_of w)); discriminate. }
  rewrite (install_coverage_windows_absent _ _ Hwin Hw).
  cbn [pkg_mgr installer_of]. unfold manager_of. rewrite F. cbn [candidates find].
  split.
  - intros Hg. rewrite Hg. reflexivity.
  - intros Hg Hc. rewrite Hg, Hc.
    change (mapping opencppcoverage_table (Some "choco"))
      with (Some ("choco install opencppcoverage",
                  "Installing OpenCppCoverage via chocolatey")).
    cbv beta iota.
    rewrite log_after, shell_cmds_app, run_command_cmds. reflexivity.
Qed.

(** X9.  When every required tool is on the path, a run without the flag
    dispatches nothing, leaves the machine as it is, prints the summary
    4/4 and returns (exit status 0); with the flag and doxygen on the path
    as well, the summary is 5/5. *)
Theorem provisioned_machine_passes (w : World) :
  required_present w ->
  (res (main false w) = Ok tt /\
   final (main false w) = w /\
   shell_cmds (log (main false w)) = [] /\
   In (summary_line 4 4) (log (main false w))) /\
  (which w "doxygen" = true ->
   res (main true w) = Ok tt /\
   final (main true w) = w /\
   shell_cmds (log (main true w)) = [] /\
   In (summary_line 5 5) (log (main true w))).
Proof.
  intros (Hc & (c & Hin & Hcc) & Hg & Hcov).
  pose proof (install_cmake_present (installer_of w) w Hc) as E1.
  destruct (compiler_found _ _ _ Hin Hcc) as [c' Ec].
  pose proof (install_compiler_present (installer_of w) w c' Ec) as E2.
  pose proof (install_git_present (installer_of w) w Hg) as E3.
  assert (E4 : exists l4,
             install_coverage_tools (installer_of w) w = mkRun (Ok true) w l4 /\
             shell_cmds l4 = []).
  { destruct (is_windows (detector_of w)) eqn:Hwin.
    - eexists. split; [now apply install_coverage_windows_present|reflexivity].
    - destruct Hcov as [Hgc Hlc]. eexists.
      split; [now apply install_coverage_both_present|reflexivity]. }
  destruct E4 as (l4 & E4 & C4).
  assert (Foot : forall n pre, In (summary_line n n) (pre ++ footer n n)).
  { intros n pre. apply in_or_app. right. unfold footer. right. left. reflexivity. }
  split.
  - destruct (main_parts false w) as [C F]. rewrite C, F, main_run.
    rewrite (provision_required _ _ _ _ _ _ _ _ _ _ _ _ _ _ E1 E2 E3 E4).
    cbv zeta. cbn [res final log]. repeat split.
    + rewrite !shell_cmds_app, shell_cmds_probes, C4. reflexivity.
    + rewrite app_assoc. apply (Foot 4).
  - intros Hd.
    pose proof (install_doxygen_present (installer_of w) w Hd) as E5.
    destruct (main_parts true w) as [C F]. rewrite C, F, main_run.
    rewrite (provision_optional _ _ _ _ _ _ _ _ _ _ _ _ _ _ _ _ _ E1 E2 E3 E4 E5).
    cbv zeta. cbn [res final log]. repeat split.
    + rewrite !shell_cmds_app, shell_cmds_probes, C4. reflexivity.
    + rewrite app_assoc. apply (Foot 5).
Qed.

(** X10.  On a machine with no package manager detected and none of the tools
    on the path, every step fails except the compiler step on Windows: the
    summary counts 0 successes (1 on Windows) out of 4, or out of 5 with
    the flag, and the run exits with status 1. *)
Theorem bare_machine_fails (install_optional : bool) (w : World) :
  manager_of w = None ->
  (forall name : string,
     In name ("doxygen" :: required_names) -> which w name = false) ->
  res (main install_optional w) = Raise (SystemExit 1) /\
  In (summary_line (if is_windows (detector_of w) then 1 else 0)
                   (if install_optional then 5 else 4))
     (log (main install_optional w)).
Proof.
  intros Hpm Habs.
  assert (Abs : forall name, In name ("doxygen" :: required_names) ->
                             which w name = false) by exact Habs.
  assert (Pm : forall table, mapping table (pkg_mgr (installer_of w)) = None).
  { intros table. cbn [pkg_mgr installer_of]. rewrite Hpm. apply mapping_none. }
  pose proof (install_cmake_absent (installer_of w) w
                (Abs "cmake" ltac:(cbn; tauto))) as E1.
  rewrite Pm in E1.
  assert (Ec : find (which w) (compilers (installer_of w)) = None).
  { apply absent_find. intros c Hin. apply Abs. unfold compilers in Hin.
    destruct (is_windows (detector (installer_of w)));
      cbn [In] in Hin; cbn [In required_names]; intuition. }
  assert (E2 : exists l2,
             install_compiler (installer_of w) w =
             mkRun (Ok (is_windows (detector_of w))) w l2).
  { destruct (is_windows (detector_of w)) eqn:Hwin; eexists.
    - now apply install_compiler_absent_windows.
    - now apply install_compiler_absent_unmapped. }
  destruct E2 as (l2 & E2).
  pose proof (install_git_absent (installer_of w) w
                (Abs "git" ltac:(cbn; tauto))) as E3.
  rewrite Pm in E3.
  assert (E4 : exists l4,
             install_coverage_tools (installer_of w) w = mkRun (Ok false) w l4).
  { destruct (is_windows (detector_of w)) eqn:Hwin; eexists.
    - rewrite (install_coverage_windows_absent (installer_of w) w Hwin
                 (Abs "OpenCppCoverage" ltac:(cbn; tauto))).
      rewrite Pm. reflexivity.
    - apply (install_coverage_unmapped (installer_of w) w Hwin); [|apply Pm].
      now rewrite (Abs "gcovr" ltac:(cbn; tauto)). }
  destruct E4 as (l4 & E4).
  assert (Foot : forall n t pre, In (summary_line n t) (pre ++ footer n t)).
  { intros n t pre. apply in_or_app. right. unfold footer. right. left. reflexivity. }
  rewrite main_run. destruct install_optional.
  - pose proof (install_doxygen_absent (installer_of w) w
                  (Abs "doxygen" ltac:(cbn; tauto))) as E5.
    rewrite Pm in E5.
    rewrite (provision_optional _ _ _ _ _ _ _ _ _ _ _ _ _ _ _ _ _ E1 E2 E3 E4 E5).
    cbv zeta. cbn [res final log].
    destruct (is_windows (detector_of w));
      (split; [reflexivity | rewrite app_assoc; apply Foot]).
  - rewrite (provision_required _ _ _ _ _ _ _ _ _ _ _ _ _ _ E1 E2 E3 E4).
    cbv zeta. cbn [res final log].
    destruct (is_windows (detector_of w));
      (split; [reflexivity | rewrite app_assoc; apply Foot]).
Qed.

Lemma scan_prefix (before rest : list string) (c : string) (w : World) :
  (forall x, In x before -> which w x = false) -> which w c = true ->
  find (which w) (before ++ c :: rest) = Some c /\
  scanned (which w) (before ++ c :: rest) = (before ++ [c])%list.
Proof.
  intros Hb Hc. induction before as [|a before IH]; cbn.
  - rewrite Hc. split; reflexivity.
  - rewrite (Hb a (or_introl eq_refl)).
    destruct IH as [F S]; [intros x Hx; apply Hb; now right|].
    rewrite F, S. split; reflexivity.
Qed.

(** X11.  The compiler step reports the first candidate of its list that is on
    the path and looks up no candidate after it: with g++ and clang++ both
    installed it is g++ that is reported, and the step succeeds on an
    unchanged machine. *)
Theorem first_compiler_found_is_reported (self : ToolInstaller) (w : World)
        (before rest : list string) (c : string) :
  compilers self = (before ++ c :: rest)%list ->
  (forall x, In x before -> which w x = false) ->
  which w c = true ->
  install_compiler self w =
  mkRun (Ok true) w
    (map EvWhich (before ++ [c])
     ++ [EvPrint ("✅ C++ Compiler: " ++ c ++ " installed")]).
Proof.
  intros Ec Hb Hc. destruct (scan_prefix before rest c w Hb Hc) as [F S].
  rewrite <- Ec in F, S.
  now rewrite (install_compiler_present self w c F), S.
Qed.

(** X12.  Each method built on [check_tool] looks its tool up once, before
    anything else, and never again: after an install command the path is
    not consulted to confirm that the tool is there. *)
Theorem tool_is_looked_up_once (self : ToolInstaller) (w : World) :
  probes (log (install_cmake self w)) = ["cmake"] /\
  probes (log (install_git self w)) = ["git"] /\
  probes (log (install_doxygen self w)) = ["doxygen"].
Proof.
  repeat split.
  - unfold install_cmake.
    rewrite (bind_ok _ _ _ _ _ _ (check_tool_unversioned _ _ _)), log_after, probes_app.
    match goal with
    | |- (_ ++ probes (log (?k w)))%list = _ =>
        assert (Q : quiet k) by walk quiet_leaf; rewrite (Q w)
    end. reflexivity.
  - unfold install_git.
    rewrite (bind_ok _ _ _ _ _ _ (check_tool_unversioned _ _ _)), log_after, probes_app.
    match goal with
    | |- (_ ++ probes (log (?k w)))%list = _ =>
        assert (Q : quiet k) by walk quiet_leaf; rewrite (Q w)
    end. reflexivity.
  - unfold install_doxygen.
    rewrite (bind_ok _ _ _ _ _ _ (check_tool_unversioned _ _ _)), log_after, probes_app.
    match goal with
    | |- (_ ++ probes (log (?k w)))%list = _ =>
        assert (Q : quiet k) by walk quiet_leaf; rewrite (Q w)
    end. reflexivity.
Qed.

End Outcomes.

(** ** Instances of the further properties on the concrete machines *)

Lemma run_command_contract_witness :
  res (run_command "sudo apt install -y gcovr" "Installing gcovr via apt" debian) =
    Ok false /\
  res (run_command "sudo apt install -y lcov" "Installing lcov via apt" debian) =
    Ok true /\
  res (run_command "sudo apt install -y git" "Installing Git via apt" broken_shell) =
    Raise OSError.
Proof.
  split; [|split].
  - destruct (run_command_contract "sudo apt install -y gcovr"
                "Installing gcovr via apt" debian) as (_ & _ & _ & F & _).
    apply F. exists (mkCompleted 1 "" "E: Unable to locate package").
    split; [reflexivity|]. split; [discriminate|]. vm_compute. auto.
  - destruct (run_command_contract "sudo apt install -y lcov"
                "Installing lcov via apt" debian) as (_ & _ & T & _).
    apply T. exists (mkCompleted 0 "" ""). split; reflexivity.
  - destruct (run_command_contract "sudo apt install -y git"
                "Installing Git via apt" broken_shell) as (_ & _ & _ & _ & E & _).
    apply E. reflexivity.
Defined.

Lemma check_tool_contract_witness :
  check_tool "doxygen" (Some "doxygen --version") (Some "1.9") workstation =
    mkRun (Ok (false, "Not installed")) workstation [EvWhich "doxygen"] /\
  shell_cmds (log (check_tool "git" (Some "git --version") (Some "2.0") workstation)) =
    ["git --version"].
Proof.
  split.
  - destruct (check_tool_contract "doxygen" (Some "doxygen --version") (Some "1.9")
                workstation) as (b & s & _ & _ & Skip & _).
    apply Skip. reflexivity.
  - destruct (check_tool_contract "git" (Some "git --version") (Some "2.0")
                workstation) as (b & s & _ & _ & _ & Runs).
    destruct (Runs eq_refl) as (cmd & [= <-] & C & _). exact C.
Defined.

Lemma commands_come_from_detected_manager_witness :
  mapped (manager_of debian) "sudo apt install -y gcovr".
Proof.
  destruct (commands_come_from_detected_manager false debian) as [C _].
  apply (C "sudo apt install -y gcovr"). vm_compute. auto.
Defined.

Lemma no_supported_manager_no_command_witness :
  shell_cmds (log (main true alpine)) = [] /\ final (main true alpine) = alpine.
Proof.
  exact (no_supported_manager_no_command true alpine (or_introl eq_refl)).
Defined.

Lemma success_means_found_or_installed_witness :
  res (install_cmake apt_installer debian) = Ok true /\
  res (install_coverage_tools windows_installer windows_bare) <> Ok true.
Proof.
  split.
  - apply (proj1 (success_means_found_or_installed apt_installer debian)).
    right. split; [reflexivity|].
    exists "sudo apt update && sudo apt install -y cmake",
      "Installing CMake via apt", (mkCompleted 0 "" "").
    repeat split.
  - intros R.
    apply (proj2 (proj2 (proj2 (success_means_found_or_installed
                                  windows_installer windows_bare))) eq_refl) in R.
    destruct R as [[=]|(_ & cmd & d & p & [=] & _)].
Defined.

Lemma winget_shadows_chocolatey_witness :
  res (install_coverage_tools (installer_of windows_desktop) windows_desktop) =
    Ok false /\
  shell_cmds (log (install_coverage_tools (installer_of windows_choco)
                     windows_choco)) = ["choco install opencppcoverage"].
Proof.
  split.
  - rewrite (proj1 (winget_shadows_chocolatey windows_desktop eq_refl eq_refl)
               eq_refl).
    reflexivity.
  - exact (proj2 (winget_shadows_chocolatey windows_choco eq_refl eq_refl)
                 eq_refl eq_refl).
Defined.

Lemma provisioned_machine_passes_witness :
  res (main false workstation) = Ok tt /\ res (main true build_server) = Ok tt.
Proof.
  assert (P1 : required_present workstation).
  { split; [reflexivity|]. split; [|split; [reflexivity | split; reflexivity]].
    exists "g++". split; [left|]; reflexivity. }
  assert (P2 : required_present build_server).
  { split; [reflexivity|]. split; [|split; [reflexivity | split; reflexivity]].
    exists "clang++". split; [right; left|]; reflexivity. }
  split.
  - destruct (provisioned_machine_passes workstation P1) as [[R _] _]. exact R.
  - destruct (provisioned_machine_passes build_server P2) as [_ D].
    destruct (D eq_refl) as [R _]. exact R.
Defined.

Lemma bare_machine_fails_witness :
  In (summary_line 0 5) (log (main true alpine)) /\
  In (summary_line 1 4) (log (main false windows_bare)).
Proof.
  split.
  - exact (proj2 (bare_machine_fails true alpine eq_refl (fun name _ => eq_refl))).
  - exact (proj2 (bare_machine_fails false windows_bare eq_refl
                    (fun name _ => eq_refl))).
Defined.

Lemma first_compiler_found_is_reported_witness :
  install_compiler apt_installer build_server =
  mkRun (Ok true) build_server
    [EvWhich "g++"; EvWhich "clang++"; EvPrint "✅ C++ Compiler: clang++ installed"].
Proof.
  apply (first_compiler_found_is_reported apt_installer build_server
           ["g++"] [] "clang++"); [reflexivity| |reflexivity].
  intros x [<-|[]]. reflexivity.
Defined.

(** The run on the machine whose shell cannot launch the git command stops
    at that command, after cmake and the compiler were found. *)
Example broken_shell_run :
  res (main true broken_shell) = Raise OSError /\
  last (log (main true broken_shell)) (EvPrint "") =
    EvShell "sudo apt install -y git".
Proof. split; reflexivity. Qed.

(** The run on the machine whose cmake package prints invalid text: the
    package is installed, the exception of the decoding goes through
    [run_command], and the run stops there although the command exited with
    status 0. *)
Example garbled_run :
  res (main false garbled_apt) = Raise UnicodeDecodeError /\
  which (final (main false garbled_apt)) "cmake" = true /\
  last (log (main false garbled_apt)) (EvPrint "") =
    EvShell "sudo apt update && sudo apt install -y cmake".
Proof. repeat split; reflexivity. Qed.

(** With a minimum version, a version command that prints invalid text
    turns a present tool into an absent one. *)
Example versioned_check_on_garbled_output :
  res (check_tool "git" (Some "git --version") (Some "2.0")
         (mkMachine "Linux" ["git"] [] [] [] ["git --version"])) =
  Ok (false, "Version check failed").
Proof. reflexivity. Qed.
